(** * Water reminder: scheduling and notification suppression

    A shallow embedding of the main process of the water-reminder
    application (src/app.ts): the persisted settings record, the
    notification helper, the periodic due-check, the scheduler start and
    the IPC handlers, written as computations in a state monad over the
    part of the world they touch.

    Numbers.  [Date.now()] yields whole milliseconds and the settings
    hold whole minutes, so JavaScript numbers are taken as integers [Z]
    (the arithmetic of the due-check is exact on them).

    Time.  [Date.now()] is read several times inside one handler (the
    due-check reads it, and the notification helper reads it again for
    the stamp), so the clock is a sequence of readings: the [n]-th call
    of [Date.now()] in the life of the process returns [clock n].

    The scheduler comes first, over the settings record alone.  The
    shell around it (tray, settings window, IPC channels, the end of the
    process) and the settings form with its bridge follow, over a state
    that holds the scheduler's world.  Logging is left out: it neither
    reads nor writes any of this. *)

From Stdlib Require Import ZArith List String Lia.
From ExtLib Require Import Structures.Monad Data.Monads.StateMonad.
From ExtLib Require Import Data.Monads.EitherMonad.
Import ListNotations.
Import MonadNotation.
Local Open Scope monad_scope.
Local Open Scope Z_scope.

(** ** Data *)

(** [interface Settings]. *)
Record Settings : Type := mkSettings {
  intervalMinutes : Z;
  lastSent : Z;
  openAtLogin : bool
}.

(** The [default] entries of the electron-store [schema]. *)
Definition schema : Settings :=
  {| intervalMinutes := 15; lastSent := 0; openAtLogin := false |}.

(** [Partial<Settings>]: every field may be [undefined]. *)
Record PartialSettings : Type := mkPartial {
  p_intervalMinutes : option Z;
  p_lastSent : option Z;
  p_openAtLogin : option bool
}.

(** The options object handed to [new Notification(...)]. *)
Record Notification : Type := mkNotification {
  title : string;
  body : string;
  silent : bool
}.

(** [new Cron(pattern, callback)]; the only callback in the program is
    [checkAndNotify], so the job is known by its pattern. *)
Record Cron : Type := mkCron { pattern : string }.

(** What the handlers read and write: the store, how many times the
    clock was read, the notifications shown so far (oldest first), the
    login-item setting last given to the operating system, and the
    module-level [scheduler] reference. *)
Record World : Type := mkWorld {
  store : Settings;
  reads : nat;
  shown : list Notification;
  loginItem : option bool;
  scheduler : option Cron
}.

(** The answer [{ success: true }] of the IPC handlers. *)
Record Reply : Type := mkReply { success : bool }.

Definition waterNotification : Notification :=
  {| title := "💧 Time to Drink Water!";
     body := "Stay hydrated! Take a moment to drink some water.";
     silent := false |}.

Definition savedNotification : Notification :=
  {| title := "✅ Settings Saved";
     body := "Your water reminder settings have been updated.";
     silent := false |}.

(** ** Store and collaborators *)

Definition with_store (f : Settings -> Settings) (w : World) : World :=
  {| store := f (store w); reads := reads w; shown := shown w;
     loginItem := loginItem w; scheduler := scheduler w |}.

(** [store.store] *)
Definition store_store : state World Settings :=
  mkState (fun w => (store w, w)).

(** [store.get('openAtLogin')] *)
Definition store_get_openAtLogin : state World bool :=
  mkState (fun w => (openAtLogin (store w), w)).

(** [store.set('intervalMinutes', v)] *)
Definition store_set_intervalMinutes (v : Z) : state World unit :=
  mkState (fun w => (tt, with_store (fun s =>
    {| intervalMinutes := v; lastSent := lastSent s;
       openAtLogin := openAtLogin s |}) w)).

(** [store.set('lastSent', v)] *)
Definition store_set_lastSent (v : Z) : state World unit :=
  mkState (fun w => (tt, with_store (fun s =>
    {| intervalMinutes := intervalMinutes s; lastSent := v;
       openAtLogin := openAtLogin s |}) w)).

(** [store.set('openAtLogin', v)] *)
Definition store_set_openAtLogin (v : bool) : state World unit :=
  mkState (fun w => (tt, with_store (fun s =>
    {| intervalMinutes := intervalMinutes s; lastSent := lastSent s;
       openAtLogin := v |}) w)).

(** [notification.show()] *)
Definition notification_show (n : Notification) : state World unit :=
  mkState (fun w => (tt,
    {| store := store w; reads := reads w; shown := shown w ++ [n];
       loginItem := loginItem w; scheduler := scheduler w |})).

(** [app.setLoginItemSettings({ openAtLogin })] *)
Definition app_setLoginItemSettings (b : bool) : state World unit :=
  mkState (fun w => (tt,
    {| store := store w; reads := reads w; shown := shown w;
       loginItem := Some b; scheduler := scheduler w |})).

(** [scheduler = c] *)
Definition set_scheduler (c : Cron) : state World unit :=
  mkState (fun w => (tt,
    {| store := store w; reads := reads w; shown := shown w;
       loginItem := loginItem w; scheduler := Some c |})).

(** The operations an event of the running application can start. *)
Inductive Event : Type :=
  | AppReady
  | CronTick
  | GetSettings
  | SaveSettings (newSettings : PartialSettings)
  | TestNotification.

Section Scheduler.

(** The successive readings of the wall clock, in milliseconds. *)
Variable clock : nat -> Z.

(** [Date.now()] *)
Definition Date_now : state World Z :=
  mkState (fun w => (clock (reads w),
    {| store := store w; reads := S (reads w); shown := shown w;
       loginItem := loginItem w; scheduler := scheduler w |})).

(** ** The program *)

Definition showWaterNotification : state World unit :=
  notification_show waterNotification ;;
  t <- Date_now ;;
  store_set_lastSent t.

Definition checkAndNotify : state World unit :=
  s <- store_store ;;
  if lastSent s =? 0 then ret tt
  else
    now <- Date_now ;;
    let timeSinceLastSent := now - lastSent s in
    let intervalMs := intervalMinutes s * 60 * 1000 in
    if timeSinceLastSent >=? intervalMs then showWaterNotification
    else ret tt.

Definition initScheduler : state World unit :=
  set_scheduler (mkCron "* * * * *") ;;
  t <- Date_now ;;
  store_set_lastSent t.

(** The handler of ['get-settings']. *)
Definition get_settings : state World Settings :=
  store_store.

(** The handler of ['save-settings']. *)
Definition save_settings (newSettings : PartialSettings)
  : state World Reply :=
  match p_intervalMinutes newSettings with
  | Some m => store_set_intervalMinutes m
  | None => ret tt
  end ;;
  match p_openAtLogin newSettings with
  | Some b => store_set_openAtLogin b ;; app_setLoginItemSettings b
  | None => ret tt
  end ;;
  t <- Date_now ;;
  store_set_lastSent t ;;
  notification_show savedNotification ;;
  ret {| success := true |}.

(** The handler of ['test-notification']. *)
Definition test_notification : state World Reply :=
  showWaterNotification ;;
  ret {| success := true |}.

Definition configureAutoLaunch : state World unit :=
  b <- store_get_openAtLogin ;;
  app_setLoginItemSettings b.

(** What [app.whenReady()] runs that touches the world above (the IPC
    handlers are registered and the tray is built before it). *)
Definition app_ready : state World unit :=
  initScheduler ;;
  configureAutoLaunch.

(** One event handler runs to its end before the next begins. *)
Definition handle (e : Event) : state World unit :=
  match e with
  | AppReady => app_ready
  | CronTick => checkAndNotify
  | GetSettings => get_settings ;; ret tt
  | SaveSettings p => save_settings p ;; ret tt
  | TestNotification => test_notification ;; ret tt
  end.

Definition exec {A : Type} (c : state World A) (w : World) : World :=
  snd (runState c w).

Fixpoint run (es : list Event) (w : World) : World :=
  match es with
  | [] => w
  | e :: es' => run es' (exec (handle e) w)
  end.

End Scheduler.

(** ** Auxiliary definitions for the statements *)

(** The due-check of [checkAndNotify], on the values it compares. *)
Definition due (s : Settings) (now : Z) : bool :=
  now - lastSent s >=? intervalMinutes s * 60 * 1000.

(** The world after the helper has shown the reminder and stamped the
    store with the reading [t], [n] clock readings later. *)
Definition stamped (n : nat) (t : Z) (w : World) : World :=
  {| store := {| intervalMinutes := intervalMinutes (store w);
                 lastSent := t;
                 openAtLogin := openAtLogin (store w) |};
     reads := (n + reads w)%nat;
     shown := shown w ++ [waterNotification];
     loginItem := loginItem w;
     scheduler := scheduler w |}.

(** The stored stamp is not ahead of the clock: true of a fresh record
    (stamp 0, epoch clock) and of every stamp the program writes. *)
Definition stamp_in_past (clock : nat -> Z) (w : World) : Prop :=
  lastSent (store w) <= clock (reads w).

Definition nondecreasing (clock : nat -> Z) : Prop :=
  forall i j : nat, (i <= j)%nat -> clock i <= clock j.

(** A clock that starts at [t0] and advances one millisecond per
    reading, and the world of a process that starts on the record [s]
    having read the clock [n] times. *)
Definition clock_from (t0 : Z) : nat -> Z :=
  fun n => t0 + Z.of_nat n.

Definition world_at (s : Settings) (n : nat) : World :=
  {| store := s; reads := n; shown := []; loginItem := None;
     scheduler := None |}.

Definition quarter_hour (T : Z) : Settings :=
  {| intervalMinutes := 15; lastSent := T; openAtLogin := false |}.

(** The settings form (renderer/app.tsx): the values of the options of
    the interval selector, and the request its save button sends (the
    interval and the login flag are always present). *)
Definition interval_options : list Z := [5; 10; 10; 30; 60; 120; 240].

Definition handleSave (interval : Z) (atLogin : bool) : PartialSettings :=
  {| p_intervalMinutes := Some interval; p_lastSent := None;
     p_openAtLogin := Some atLogin |}.

(** A request with no field at all. *)
Definition no_fields : PartialSettings :=
  {| p_intervalMinutes := None; p_lastSent := None; p_openAtLogin := None |}.

(** ** The shell: tray, settings window, IPC and the life of the process

    The rest of src/app.ts.  A [BrowserWindow] is known by the number
    of windows made before it; its size, title, icon and page do not
    bear on what the handlers do and are left out.  A handler of the
    main process either ends in a new shell or throws. *)

Inductive Error : Type :=
  | TypeError                       (* a property of null or undefined *)
  | ObjectDestroyed                 (* a method of a destroyed window *)
  | NoHandler (channel : string)    (* invoke on a channel without handler *)
  | Thrown (message : string).      (* throw new Error(message) *)

Inductive Action : Type := OpenSettings | QuitApp.

Inductive MenuItem : Type :=
  | Item (label : string) (click : Action)
  | Separator.

Record Tray : Type := mkTray {
  toolTip : string;
  contextMenu : list MenuItem
}.

Inductive Handler : Type :=
  | OnGetSettings
  | OnSaveSettings
  | OnTestNotification.

(** The object a renderer sends with ['save-settings']: the handler
    reads it as a [Partial<Settings>]; the form adds a property of its
    own. *)
Record Payload : Type := mkPayload {
  partial : PartialSettings;
  openSettingsOnLaunch : option bool
}.

Inductive IpcValue : Type :=
  | VSettings (s : Settings)
  | VReply (r : Reply).

Record Shell : Type := mkShell {
  world : World;
  tray : option Tray;                  (* the module-level [tray] *)
  settingsWindow : option nat;         (* the module-level [settingsWindow] *)
  openWindows : list nat;              (* BrowserWindow.getAllWindows() *)
  created : nat;                       (* windows made so far *)
  focused : list nat;                  (* calls of focus(), oldest first *)
  handlers : list (string * Handler);  (* what ipcMain.handle registered *)
  stopped : bool;                      (* stop() was called on the job *)
  quitting : bool                      (* app.quit() was called *)
}.

Definition shellM : Type -> Type := stateT Shell (sum Error).

#[local] Existing Instance Monad_stateT.

Definition throw {A : Type} (e : Error) : shellM A :=
  mkStateT (fun _ => inl e).

Definition gets {A : Type} (f : Shell -> A) : shellM A :=
  mkStateT (fun sh => inr (f sh, sh)).

Definition modify (f : Shell -> Shell) : shellM unit :=
  mkStateT (fun sh => inr (tt, f sh)).

Definition set_world (w : World) (sh : Shell) : Shell :=
  {| world := w; tray := tray sh; settingsWindow := settingsWindow sh;
     openWindows := openWindows sh; created := created sh;
     focused := focused sh; handlers := handlers sh;
     stopped := stopped sh; quitting := quitting sh |}.

Definition set_tray (t : option Tray) (sh : Shell) : Shell :=
  {| world := world sh; tray := t; settingsWindow := settingsWindow sh;
     openWindows := openWindows sh; created := created sh;
     focused := focused sh; handlers := handlers sh;
     stopped := stopped sh; quitting := quitting sh |}.

Definition set_settingsWindow (r : option nat) (sh : Shell) : Shell :=
  {| world := world sh; tray := tray sh; settingsWindow := r;
     openWindows := openWindows sh; created := created sh;
     focused := focused sh; handlers := handlers sh;
     stopped := stopped sh; quitting := quitting sh |}.

Definition set_handlers (hs : list (string * Handler)) (sh : Shell) : Shell :=
  {| world := world sh; tray := tray sh; settingsWindow := settingsWindow sh;
     openWindows := openWindows sh; created := created sh;
     focused := focused sh; handlers := hs;
     stopped := stopped sh; quitting := quitting sh |}.

Definition set_stopped (b : bool) (sh : Shell) : Shell :=
  {| world := world sh; tray := tray sh; settingsWindow := settingsWindow sh;
     openWindows := openWindows sh; created := created sh;
     focused := focused sh; handlers := handlers sh;
     stopped := b; quitting := quitting sh |}.

Definition set_quitting (b : bool) (sh : Shell) : Shell :=
  {| world := world sh; tray := tray sh; settingsWindow := settingsWindow sh;
     openWindows := openWindows sh; created := created sh;
     focused := focused sh; handlers := handlers sh;
     stopped := stopped sh; quitting := b |}.

(** A handler of the scheduler, run on the world of the shell. *)
Definition liftW {A : Type} (c : state World A) : shellM A :=
  mkStateT (fun sh =>
    let (a, w) := runState c (world sh) in inr (a, set_world w sh)).

(** *** Windows *)

(** [win.isDestroyed()] *)
Definition isDestroyed (id : nat) (sh : Shell) : bool :=
  negb (existsb (Nat.eqb id) (openWindows sh)).

(** [new BrowserWindow(...)] *)
Definition new_BrowserWindow : shellM nat :=
  mkStateT (fun sh => inr (created sh,
    {| world := world sh; tray := tray sh;
       settingsWindow := settingsWindow sh;
       openWindows := openWindows sh ++ [created sh];
       created := S (created sh);
       focused := focused sh; handlers := handlers sh;
       stopped := stopped sh; quitting := quitting sh |})).

(** A method of a window that leaves no trace here
    ([setMenuBarVisibility], [loadURL], [loadFile], [on]): it throws on
    a destroyed window. *)
Definition window_method (id : nat) : shellM unit :=
  mkStateT (fun sh =>
    if isDestroyed id sh then inl ObjectDestroyed else inr (tt, sh)).

(** [win.focus()] *)
Definition window_focus (id : nat) : shellM unit :=
  mkStateT (fun sh =>
    if isDestroyed id sh then inl ObjectDestroyed
    else inr (tt,
      {| world := world sh; tray := tray sh;
         settingsWindow := settingsWindow sh;
         openWindows := openWindows sh; created := created sh;
         focused := focused sh ++ [id]; handlers := handlers sh;
         stopped := stopped sh; quitting := quitting sh |})).

(** [createSettingsWindow] past its early return. *)
Definition openSettingsWindow : shellM unit :=
  id <- new_BrowserWindow ;;
  modify (set_settingsWindow (Some id)) ;;
  window_method id ;;   (* setMenuBarVisibility(false) *)
  window_method id ;;   (* loadURL or loadFile *)
  window_method id.     (* on('closed', ...) *)

Definition createSettingsWindow : shellM unit :=
  sh <- gets (fun sh => sh) ;;
  match settingsWindow sh with
  | Some id =>
      if negb (isDestroyed id sh) then window_focus id
      else openSettingsWindow
  | None => openSettingsWindow
  end.

(** The handler of ['window-all-closed']: the application stays in the
    tray. *)
Definition window_all_closed : shellM unit := ret tt.

(** The user closes the window [id]: it leaves the open windows, its
    ['closed'] handler clears the reference, and the application is told
    when no window is left.  Closing a window that is not open is no
    event. *)
Definition window_closed (id : nat) : shellM unit :=
  sh <- gets (fun sh => sh) ;;
  if isDestroyed id sh then ret tt
  else
    modify (fun sh =>
      {| world := world sh; tray := tray sh;
         settingsWindow := settingsWindow sh;
         openWindows :=
           filter (fun i => negb (Nat.eqb id i)) (openWindows sh);
         created := created sh; focused := focused sh;
         handlers := handlers sh;
         stopped := stopped sh; quitting := quitting sh |}) ;;
    modify (set_settingsWindow None) ;;
    n <- gets (fun sh => List.length (openWindows sh)) ;;
    if Nat.eqb n 0 then window_all_closed else ret tt.

(** The handler of ['activate']. *)
Definition on_activate : shellM unit :=
  n <- gets (fun sh => List.length (openWindows sh)) ;;
  if Nat.eqb n 0 then createSettingsWindow else ret tt.

(** *** The end of the process *)

(** [scheduler.stop()] *)
Definition scheduler_stop : shellM unit :=
  sh <- gets (fun sh => sh) ;;
  match scheduler (world sh) with
  | Some _ => modify (set_stopped true)
  | None => throw TypeError
  end.

(** The handler of ['before-quit']. *)
Definition before_quit : shellM unit :=
  sh <- gets (fun sh => sh) ;;
  match scheduler (world sh) with
  | Some _ => scheduler_stop
  | None => ret tt
  end.

(** [app.quit()]: the application announces the quit to its handler. *)
Definition app_quit : shellM unit :=
  modify (set_quitting true) ;;
  before_quit.

(** *** The tray *)

Definition createTray : shellM unit :=
  modify (set_tray (Some
    {| toolTip := "Water Reminder";
       contextMenu := [ Item "Open Settings" OpenSettings;
                        Separator;
                        Item "Quit" QuitApp ] |})).

Definition do_action (a : Action) : shellM unit :=
  match a with
  | OpenSettings => createSettingsWindow
  | QuitApp => app_quit
  end.

(** A click on the tray icon, and a click on the [i]-th entry of its
    menu; without a tray there is nothing to click. *)
Definition tray_click : shellM unit :=
  t <- gets tray ;;
  match t with
  | Some _ => createSettingsWindow
  | None => ret tt
  end.

Definition menu_click (i : nat) : shellM unit :=
  t <- gets tray ;;
  match t with
  | Some t =>
      match nth_error (contextMenu t) i with
      | Some (Item _ a) => do_action a
      | Some Separator => ret tt
      | None => ret tt
      end
  | None => ret tt
  end.

(** *** IPC *)

Fixpoint find_handler (channel : string) (hs : list (string * Handler))
  : option Handler :=
  match hs with
  | [] => None
  | (c, h) :: hs' =>
      if String.eqb c channel then Some h else find_handler channel hs'
  end.

Definition setupIpcHandlers : shellM unit :=
  modify (fun sh => set_handlers
    (handlers sh ++ [ ("get-settings"%string, OnGetSettings);
                      ("save-settings"%string, OnSaveSettings);
                      ("test-notification"%string, OnTestNotification) ])
    sh).

(** *** Events *)

Inductive FormEvent : Type :=
  | Mount
  | Select (i : nat)
  | CheckAtLogin (checked : bool)
  | CheckOnLaunch (checked : bool)
  | ClickSave
  | ClickTest.

Inductive ShellEvent : Type :=
  | Minute
  | TrayClick
  | MenuClick (i : nat)
  | Activate
  | WindowClosed (id : nat)
  | QuitRequest.

Inductive SysEvent : Type :=
  | OfShell (e : ShellEvent)
  | OfForm (e : FormEvent).

(** *** What holds of the shell while the application runs *)

(** The events that ask the application to quit: the request of the
    system, and a click on the third entry of the tray menu. *)
Definition asks_quit (e : SysEvent) : bool :=
  match e with
  | OfShell QuitRequest => true
  | OfShell (MenuClick 2) => true
  | _ => false
  end.


(** The reference and the open windows agree: no window and no
    reference, or one window and the reference to it. *)
Definition window_ok (sh : Shell) : Prop :=
  match settingsWindow sh with
  | None => openWindows sh = []
  | Some id => openWindows sh = [id]
  end.

Definition shell_ok (sh : Shell) : Prop :=
  window_ok sh
  /\ find_handler "get-settings" (handlers sh) = Some OnGetSettings
  /\ find_handler "save-settings" (handlers sh) = Some OnSaveSettings
  /\ find_handler "test-notification" (handlers sh) = Some OnTestNotification
  /\ scheduler (world sh) = Some (mkCron "* * * * *")
  /\ stopped sh = quitting sh.

(** *** The settings form (renderer/app.tsx) *)

(** The [<option>]s of the interval selector: value and text. *)
Definition interval_select : list (Z * string) :=
  [ (5, "5 minutes"); (10, "10 minutes"); (10, "15 minutes");
    (30, "30 minutes"); (60, "1 hour"); (120, "2 hours");
    (240, "4 hours") ]%string.

(** The state of the component, and what [console.error] received. *)
Record Form : Type := mkForm {
  f_intervalMinutes : Z;
  f_openAtLogin : bool;
  f_openSettingsOnLaunch : option bool;
  isLoading : bool;
  isSaving : bool;
  console_error : list (string * Error)
}.

(** The arguments of the [useState] calls. *)
Definition initial_form : Form :=
  {| f_intervalMinutes := 60; f_openAtLogin := true;
     f_openSettingsOnLaunch := Some true;
     isLoading := true; isSaving := false; console_error := [] |}.

Section Application.

Variable clock : nat -> Z.

(** The job calls [checkAndNotify] every minute until it is stopped. *)
Definition cron_minute : shellM unit :=
  sh <- gets (fun sh => sh) ;;
  match scheduler (world sh) with
  | Some _ => if stopped sh then ret tt else liftW (checkAndNotify clock)
  | None => ret tt
  end.

(** [ipcRenderer.invoke(channel, arg)], as the main process serves it. *)
Definition ipc_invoke (channel : string) (arg : option Payload)
  : shellM IpcValue :=
  hs <- gets handlers ;;
  match find_handler channel hs with
  | None => throw (NoHandler channel)
  | Some OnGetSettings =>
      s <- liftW get_settings ;; ret (VSettings s)
  | Some OnSaveSettings =>
      match arg with
      | Some newSettings =>
          r <- liftW (save_settings clock (partial newSettings)) ;;
          ret (VReply r)
      | None => throw TypeError
      end
  | Some OnTestNotification =>
      r <- liftW (test_notification clock) ;; ret (VReply r)
  end.

(** What [app.whenReady()] runs. *)
Definition whenReady : shellM unit :=
  setupIpcHandlers ;;
  createTray ;;
  liftW (initScheduler clock) ;;
  liftW configureAutoLaunch.

(** The process as it starts on the persisted record [s]. *)
Definition boot (s : Settings) : Shell :=
  {| world := world_at s 0; tray := None; settingsWindow := None;
     openWindows := []; created := 0%nat; focused := [];
     handlers := []; stopped := false; quitting := false |}.

(** The shell once [whenReady] has run on it. *)
Definition ready_shell (s : Settings) : Shell :=
  match runStateT whenReady (boot s) with
  | inr (_, sh) => sh
  | inl _ => boot s
  end.

Definition deliver (e : ShellEvent) : shellM unit :=
  match e with
  | Minute => cron_minute
  | TrayClick => tray_click
  | MenuClick i => menu_click i
  | Activate => on_activate
  | WindowClosed id => window_closed id
  | QuitRequest => app_quit
  end.

End Application.

(** A shell on which the settings window has been asked for. *)
Definition with_window (sh : Shell) : Shell :=
  match runStateT createSettingsWindow sh with
  | inr (_, sh') => sh'
  | inl _ => sh
  end.

(** *** The bridge (preload.ts) and the form *)

Module Renderer.

Section Page.

Variable clock : nat -> Z.

(** The promise of [getSettings] resolves to what the handler of the
    channel returned; the page reads it as a settings record (the
    handler installed on that channel returns nothing else). *)
Definition getSettings : shellM Settings :=
  v <- ipc_invoke clock "get-settings" None ;;
  match v with
  | VSettings s => ret s
  | VReply _ => throw TypeError
  end.

Definition saveSettings (settings : Payload) : shellM IpcValue :=
  ipc_invoke clock "save-settings" (Some settings).

Definition testNotification : shellM IpcValue :=
  ipc_invoke clock "test-notification" None.

(** Is [window.electronAPI] there, that is, did the preload script
    run. *)
Variable bridge : bool.

Definition log_error (msg : string) (e : Error) (f : Form) : Form :=
  {| f_intervalMinutes := f_intervalMinutes f;
     f_openAtLogin := f_openAtLogin f;
     f_openSettingsOnLaunch := f_openSettingsOnLaunch f;
     isLoading := isLoading f; isSaving := isSaving f;
     console_error := console_error f ++ [(msg, e)] |}.

Definition setIsLoading (b : bool) (f : Form) : Form :=
  {| f_intervalMinutes := f_intervalMinutes f;
     f_openAtLogin := f_openAtLogin f;
     f_openSettingsOnLaunch := f_openSettingsOnLaunch f;
     isLoading := b; isSaving := isSaving f;
     console_error := console_error f |}.

Definition setIsSaving (b : bool) (f : Form) : Form :=
  {| f_intervalMinutes := f_intervalMinutes f;
     f_openAtLogin := f_openAtLogin f;
     f_openSettingsOnLaunch := f_openSettingsOnLaunch f;
     isLoading := isLoading f; isSaving := b;
     console_error := console_error f |}.

Definition setIntervalMinutes (v : Z) (f : Form) : Form :=
  {| f_intervalMinutes := v;
     f_openAtLogin := f_openAtLogin f;
     f_openSettingsOnLaunch := f_openSettingsOnLaunch f;
     isLoading := isLoading f; isSaving := isSaving f;
     console_error := console_error f |}.

Definition setOpenAtLogin (b : bool) (f : Form) : Form :=
  {| f_intervalMinutes := f_intervalMinutes f;
     f_openAtLogin := b;
     f_openSettingsOnLaunch := f_openSettingsOnLaunch f;
     isLoading := isLoading f; isSaving := isSaving f;
     console_error := console_error f |}.

Definition setOpenSettingsOnLaunch (b : option bool) (f : Form) : Form :=
  {| f_intervalMinutes := f_intervalMinutes f;
     f_openAtLogin := f_openAtLogin f;
     f_openSettingsOnLaunch := b;
     isLoading := isLoading f; isSaving := isSaving f;
     console_error := console_error f |}.

(** The effect run on mount.  The record that comes back has no
    [openSettingsOnLaunch], so that state becomes [undefined]. *)
Definition loadSettings (f : Form) (sh : Shell) : Form * Shell :=
  match
    (if bridge then runStateT getSettings sh
     else inl (Thrown
       "electronAPI not found - preload script may not have loaded"))
  with
  | inr (settings, sh') =>
      (setIsLoading false
         (setOpenSettingsOnLaunch None
            (setOpenAtLogin (openAtLogin settings)
               (setIntervalMinutes (intervalMinutes settings) f))),
       sh')
  | inl e =>
      (setIsLoading false (log_error "Failed to load settings:" e f), sh)
  end.

Definition handleSave (f : Form) (sh : Shell) : Form * Shell :=
  match
    (if bridge then
       runStateT (saveSettings
         {| partial :=
              {| p_intervalMinutes := Some (f_intervalMinutes f);
                 p_lastSent := None;
                 p_openAtLogin := Some (f_openAtLogin f) |};
            openSettingsOnLaunch := f_openSettingsOnLaunch f |}) sh
     else inl TypeError)
  with
  | inr (_, sh') => (setIsSaving false (setIsSaving true f), sh')
  | inl e =>
      (setIsSaving false
         (log_error "Failed to save settings:" e (setIsSaving true f)), sh)
  end.

Definition handleTest (f : Form) (sh : Shell) : Form * Shell :=
  match (if bridge then runStateT testNotification sh else inl TypeError) with
  | inr (_, sh') => (f, sh')
  | inl e => (log_error "Failed to test notification:" e f, sh)
  end.

(** What an event does to the page.  A mount starts from the initial
    state; while [isLoading] the form is not drawn, and the save button
    is disabled while [isSaving]. *)
Definition form_step (e : FormEvent) (f : Form) (sh : Shell)
  : Form * Shell :=
  match e with
  | Mount => loadSettings initial_form sh
  | Select i =>
      if isLoading f then (f, sh)
      else match nth_error interval_select i with
           | Some (v, _) => (setIntervalMinutes v f, sh)
           | None => (f, sh)
           end
  | CheckAtLogin b =>
      if isLoading f then (f, sh) else (setOpenAtLogin b f, sh)
  | CheckOnLaunch b =>
      if isLoading f then (f, sh)
      else (setOpenSettingsOnLaunch (Some b) f, sh)
  | ClickSave =>
      if isLoading f then (f, sh)
      else if isSaving f then (f, sh)
      else handleSave f sh
  | ClickTest =>
      if isLoading f then (f, sh) else handleTest f sh
  end.

End Page.

End Renderer.

(** *** The whole application *)

Section System.

Variable clock : nat -> Z.
Variable bridge : bool.

(** The page and the shell take events in turn.  What a handler of the
    main process throws ends the run. *)
Definition sys_step (e : SysEvent) (st : Form * Shell)
  : Error + Form * Shell :=
  match e with
  | OfShell e =>
      match runStateT (deliver clock e) (snd st) with
      | inr (_, sh) => inr (fst st, sh)
      | inl err => inl err
      end
  | OfForm e => inr (Renderer.form_step clock bridge e (fst st) (snd st))
  end.

Fixpoint sys_run (es : list SysEvent) (st : Form * Shell)
  : Error + Form * Shell :=
  match es with
  | [] => inr st
  | e :: es' =>
      match sys_step e st with
      | inr st' => sys_run es' st'
      | inl err => inl err
      end
  end.

End System.


(** ** Runs of the due-check *)

Section Properties.

Variable clock : nat -> Z.

Lemma showWaterNotification_run (w : World) :
  runState (showWaterNotification clock) w
  = (tt, stamped 1 (clock (reads w)) w).
Proof. reflexivity. Qed.

Lemma checkAndNotify_sentinel (w : World) :
  lastSent (store w) = 0 ->
  runState (checkAndNotify clock) w = (tt, w).
Proof.
  intros H0. unfold checkAndNotify. simpl. rewrite H0. reflexivity.
Qed.

Lemma checkAndNotify_fires (w : World) :
  lastSent (store w) <> 0 ->
  due (store w) (clock (reads w)) = true ->
  runState (checkAndNotify clock) w
  = (tt, stamped 2 (clock (S (reads w))) w).
Proof.
  intros Hne Hdue. unfold checkAndNotify, due in *. simpl.
  destruct (Z.eqb_spec (lastSent (store w)) 0) as [E | _]; [contradiction |].
  simpl. rewrite Hdue. reflexivity.
Qed.

Lemma checkAndNotify_waits (w : World) :
  lastSent (store w) <> 0 ->
  due (store w) (clock (reads w)) = false ->
  runState (checkAndNotify clock) w
  = (tt, {| store := store w; reads := S (reads w); shown := shown w;
            loginItem := loginItem w; scheduler := scheduler w |}).
Proof.
  intros Hne Hdue. unfold checkAndNotify, due in *. simpl.
  destruct (Z.eqb_spec (lastSent (store w)) 0) as [E | _]; [contradiction |].
  simpl. rewrite Hdue. reflexivity.
Qed.

Lemma due_true_iff (s : Settings) (now : Z) :
  due s now = true <-> intervalMinutes s * 60 * 1000 <= now - lastSent s.
Proof. unfold due. rewrite Z.geb_leb. apply Z.leb_le. Qed.

Lemma due_false_iff (s : Settings) (now : Z) :
  due s now = false <-> now - lastSent s < intervalMinutes s * 60 * 1000.
Proof. unfold due. rewrite Z.geb_leb. apply Z.leb_gt. Qed.

Lemma test_notification_run (w : World) :
  runState (test_notification clock) w
  = ({| success := true |}, stamped 1 (clock (reads w)) w).
Proof. reflexivity. Qed.

Lemma initScheduler_run (w : World) :
  runState (initScheduler clock) w
  = (tt, {| store := {| intervalMinutes := intervalMinutes (store w);
                        lastSent := clock (reads w);
                        openAtLogin := openAtLogin (store w) |};
            reads := S (reads w);
            shown := shown w;
            loginItem := loginItem w;
            scheduler := Some (mkCron "* * * * *") |}).
Proof. reflexivity. Qed.

(** The record the save handler leaves: each field of the request that
    is present replaces the stored one, and the stamp is the reading. *)
Lemma save_settings_run (p : PartialSettings) (w : World) :
  runState (save_settings clock p) w
  = ({| success := true |},
     {| store := {| intervalMinutes :=
                      match p_intervalMinutes p with
                      | Some m => m
                      | None => intervalMinutes (store w)
                      end;
                    lastSent := clock (reads w);
                    openAtLogin :=
                      match p_openAtLogin p with
                      | Some b => b
                      | None => openAtLogin (store w)
                      end |};
        reads := S (reads w);
        shown := shown w ++ [savedNotification];
        loginItem :=
          match p_openAtLogin p with
          | Some b => Some b
          | None => loginItem w
          end;
        scheduler := scheduler w |}).
Proof.
  destruct p as [[m |] l [b |]]; reflexivity.
Qed.

(** A tick that comes before a whole interval has passed since the
    stamp shows nothing, whatever the stamp is. *)
Lemma checkAndNotify_quiet (w : World) :
  clock (reads w) - lastSent (store w)
    < intervalMinutes (store w) * 60 * 1000 ->
  shown (exec (checkAndNotify clock) w) = shown w
  /\ store (exec (checkAndNotify clock) w) = store w.
Proof.
  intros Hlt. unfold exec.
  destruct (Z.eq_dec (lastSent (store w)) 0) as [E | NE].
  - rewrite (checkAndNotify_sentinel w E). split; reflexivity.
  - rewrite (checkAndNotify_waits w NE); [split; reflexivity |].
    apply due_false_iff. exact Hlt.
Qed.

(** Ticks leave the record and show nothing as long as every reading
    they take is less than a whole interval after the stamp. *)
Lemma ticks_quiet (n : nat) (w : World) :
  (forall k : nat, (reads w <= k < reads w + n)%nat ->
     clock k - lastSent (store w) < intervalMinutes (store w) * 60 * 1000) ->
  shown (run clock (repeat CronTick n) w) = shown w
  /\ store (run clock (repeat CronTick n) w) = store w.
Proof.
  revert w. induction n as [| n IH]; intros w Hk; simpl.
  - split; reflexivity.
  - assert (Hq : clock (reads w) - lastSent (store w)
                 < intervalMinutes (store w) * 60 * 1000)
      by (apply Hk; lia).
    destruct (checkAndNotify_quiet w Hq) as [Hs Hst].
    assert (Hr : (reads w <= reads (exec (checkAndNotify clock) w)
                  <= S (reads w))%nat).
    { unfold exec.
      destruct (Z.eq_dec (lastSent (store w)) 0) as [E | NE].
      - rewrite (checkAndNotify_sentinel w E). simpl. lia.
      - rewrite (checkAndNotify_waits w NE (proj2 (due_false_iff _ _) Hq)).
        simpl. lia. }
    destruct (IH (exec (checkAndNotify clock) w)) as [Hs' Hst'].
    + intros k Hkr. rewrite Hst. apply Hk. lia.
    + rewrite Hs', Hst'. split; assumption.
Qed.

(** ** The due-check *)

(** C1 (threshold correctness).  With a stamp [T > 0] and an interval
    of [M > 0] minutes, the tick that reads the clock one millisecond
    before [T + M*60000] shows nothing, and the tick that reads exactly
    [T + M*60000] shows the reminder: the comparison is inclusive. *)
Theorem C1_threshold (w : World) (T M : Z) :
  lastSent (store w) = T ->
  intervalMinutes (store w) = M ->
  0 < T -> 0 < M ->
  (clock (reads w) = T + M * 60000 - 1 ->
   shown (exec (checkAndNotify clock) w) = shown w)
  /\ (clock (reads w) = T + M * 60000 ->
      shown (exec (checkAndNotify clock) w)
      = shown w ++ [waterNotification]).
Proof.
  intros HT HM HTpos HMpos. split; intros Hnow.
  - apply checkAndNotify_quiet. lia.
  - unfold exec. rewrite checkAndNotify_fires.
    + reflexivity.
    + lia.
    + apply due_true_iff. lia.
Qed.

(** C2 (suppression on the sentinel).  When the stamp is 0 the tick
    returns at once: for every interval and every clock, nothing is
    shown and the world, the settings record included, is as before. *)
Theorem C2_sentinel_suppresses (w : World) :
  lastSent (store w) = 0 ->
  runState (checkAndNotify clock) w = (tt, w)
  /\ shown (exec (checkAndNotify clock) w) = shown w
  /\ store (exec (checkAndNotify clock) w) = store w.
Proof.
  intros H0. unfold exec. rewrite (checkAndNotify_sentinel w H0).
  repeat split.
Qed.

(** C8 (a tick that is not due changes nothing).  With a stamp [T > 0]
    and a reading [now] with [now - T < intervalMinutes * 60000], the
    tick shows nothing and leaves the three fields of the record. *)
Theorem C8_not_due_frame (w : World) (T : Z) :
  lastSent (store w) = T ->
  0 < T ->
  clock (reads w) - T < intervalMinutes (store w) * 60000 ->
  shown (exec (checkAndNotify clock) w) = shown w
  /\ lastSent (store (exec (checkAndNotify clock) w)) = lastSent (store w)
  /\ intervalMinutes (store (exec (checkAndNotify clock) w))
     = intervalMinutes (store w)
  /\ openAtLogin (store (exec (checkAndNotify clock) w))
     = openAtLogin (store w).
Proof.
  intros HT HTpos Hlt.
  destruct (checkAndNotify_quiet w) as [Hs Hst]; [lia |].
  rewrite Hs, Hst. repeat split.
Qed.

(** ** The show-and-stamp helper and the test handler *)

(** C3, as the code has it.  The test handler shows the reminder in
    every world, whether or not a reminder is due (it reads the clock
    once, for the stamp, and compares nothing), and it sets [lastSent]
    to that reading; the other two fields are kept. *)
Theorem C3_test_notification_stamps (w : World) :
  shown (exec (test_notification clock) w) = shown w ++ [waterNotification]
  /\ reads (exec (test_notification clock) w) = S (reads w)
  /\ lastSent (store (exec (test_notification clock) w)) = clock (reads w)
  /\ intervalMinutes (store (exec (test_notification clock) w))
     = intervalMinutes (store w)
  /\ openAtLogin (store (exec (test_notification clock) w))
     = openAtLogin (store w)
  /\ fst (runState (test_notification clock) w) = {| success := true |}.
Proof.
  unfold exec. rewrite test_notification_run. repeat split.
Qed.

(** C4 (stamp on fire).  Every display made by [showWaterNotification]
    sets [lastSent] to the clock reading the helper takes as it shows
    the reminder: called directly, from the test handler, and from a
    tick that is due (there the helper's reading is the one after the
    reading the due-check compared). *)
Theorem C4_stamp_on_fire (w : World) :
  (shown (exec (showWaterNotification clock) w)
   = shown w ++ [waterNotification]
   /\ lastSent (store (exec (showWaterNotification clock) w))
      = clock (reads w))
  /\ (shown (exec (test_notification clock) w)
      = shown w ++ [waterNotification]
      /\ lastSent (store (exec (test_notification clock) w))
         = clock (reads w))
  /\ (lastSent (store w) <> 0 ->
      intervalMinutes (store w) * 60 * 1000
        <= clock (reads w) - lastSent (store w) ->
      shown (exec (checkAndNotify clock) w)
      = shown w ++ [waterNotification]
      /\ lastSent (store (exec (checkAndNotify clock) w))
         = clock (S (reads w))).
Proof.
  unfold exec. split; [| split].
  - rewrite showWaterNotification_run. split; reflexivity.
  - rewrite test_notification_run. split; reflexivity.
  - intros NE Hdue.
    rewrite (checkAndNotify_fires w NE (proj2 (due_true_iff _ _) Hdue)).
    split; reflexivity.
Qed.

(** ** Saving settings and starting the scheduler *)

(** C5 (saving restarts the window).  For every request, the empty one
    included, and every prior world, the save handler sets [lastSent]
    to the reading it takes; the ticks that follow show nothing as long
    as their readings are less than the stored interval after it. *)
Theorem C5_save_resets_window (p : PartialSettings) (w : World) (n : nat) :
  lastSent (store (exec (save_settings clock p) w)) = clock (reads w)
  /\ ((forall k : nat,
         (reads (exec (save_settings clock p) w) <= k
          < reads (exec (save_settings clock p) w) + n)%nat ->
         clock k - clock (reads w)
         < intervalMinutes (store (exec (save_settings clock p) w))
           * 60 * 1000) ->
      shown (run clock (repeat CronTick n) (exec (save_settings clock p) w))
      = shown (exec (save_settings clock p) w)).
Proof.
  assert (Hs : lastSent (store (exec (save_settings clock p) w))
               = clock (reads w)).
  { unfold exec. rewrite save_settings_run. reflexivity. }
  split; [exact Hs |].
  intros Hlt. apply ticks_quiet. rewrite Hs. exact Hlt.
Qed.

(** C6 (starting restarts the window).  For every persisted record, an
    overdue one included, [initScheduler] installs the job and sets
    [lastSent] to the reading it takes; the ticks that follow show
    nothing as long as their readings are less than the interval after
    it. *)
Theorem C6_init_resets_window (w : World) (n : nat) :
  lastSent (store (exec (initScheduler clock) w)) = clock (reads w)
  /\ scheduler (exec (initScheduler clock) w) = Some (mkCron "* * * * *")
  /\ ((forall k : nat,
         (reads (exec (initScheduler clock) w) <= k
          < reads (exec (initScheduler clock) w) + n)%nat ->
         clock k - clock (reads w)
         < intervalMinutes (store (exec (initScheduler clock) w))
           * 60 * 1000) ->
      shown (run clock (repeat CronTick n) (exec (initScheduler clock) w))
      = shown (exec (initScheduler clock) w)).
Proof.
  assert (Hs : lastSent (store (exec (initScheduler clock) w))
               = clock (reads w)).
  { unfold exec. rewrite initScheduler_run. reflexivity. }
  split; [exact Hs | split].
  - unfold exec. rewrite initScheduler_run. reflexivity.
  - intros Hlt. apply ticks_quiet. rewrite Hs. exact Hlt.
Qed.

(** C7, as the code has it.  The save handler compares the interval of
    the request with [undefined] only: a value that is present, positive
    or not, is written to the record as it is, and the handler answers
    success. *)
Theorem C7_save_writes_any_interval
    (p : PartialSettings) (w : World) (m : Z) :
  p_intervalMinutes p = Some m ->
  intervalMinutes (store (exec (save_settings clock p) w)) = m
  /\ fst (runState (save_settings clock p) w) = {| success := true |}.
Proof.
  intros Hm. unfold exec. rewrite save_settings_run, Hm.
  split; reflexivity.
Qed.

(** C10 (absent fields are kept).  A field that the request leaves
    [undefined] keeps its stored value; [lastSent] is written in every
    case. *)
Theorem C10_absent_fields_kept (p : PartialSettings) (w : World) :
  (p_intervalMinutes p = None ->
   intervalMinutes (store (exec (save_settings clock p) w))
   = intervalMinutes (store w))
  /\ (p_openAtLogin p = None ->
      openAtLogin (store (exec (save_settings clock p) w))
      = openAtLogin (store w)
      /\ loginItem (exec (save_settings clock p) w) = loginItem w)
  /\ lastSent (store (exec (save_settings clock p) w)) = clock (reads w).
Proof.
  unfold exec. rewrite save_settings_run. simpl.
  split; [| split].
  - intros H. rewrite H. reflexivity.
  - intros H. rewrite H. split; reflexivity.
  - reflexivity.
Qed.

(** ** The stamp along a run of events *)

Lemma run_app (es1 es2 : list Event) (w : World) :
  run clock (es1 ++ es2) w = run clock es2 (run clock es1 w).
Proof.
  revert w. induction es1 as [| e es1 IH]; intros w; simpl.
  - reflexivity.
  - apply IH.
Qed.

(** A handler either leaves the stamp or replaces it by a reading of
    the clock that it took itself. *)
Lemma handle_stamp (e : Event) (w : World) :
  (reads w <= reads (exec (handle clock e) w))%nat
  /\ (lastSent (store (exec (handle clock e) w)) = lastSent (store w)
      \/ exists k : nat,
           (reads w <= k < reads (exec (handle clock e) w))%nat
           /\ lastSent (store (exec (handle clock e) w)) = clock k).
Proof.
  destruct e as [| | | p |]; unfold exec, handle.
  - simpl. split; [lia |]. right. exists (reads w). split; [lia | reflexivity].
  - destruct (Z.eq_dec (lastSent (store w)) 0) as [E | NE].
    + rewrite (checkAndNotify_sentinel w E). simpl.
      split; [lia | left; reflexivity].
    + destruct (due (store w) (clock (reads w))) eqn:Hdue.
      * rewrite (checkAndNotify_fires w NE Hdue). simpl.
        split; [lia |]. right. exists (S (reads w)).
        split; [lia | reflexivity].
      * rewrite (checkAndNotify_waits w NE Hdue). simpl.
        split; [lia | left; reflexivity].
  - simpl. split; [lia | left; reflexivity].
  - destruct p as [[m |] l [b |]]; simpl;
      (split; [lia |]); right; exists (reads w);
      (split; [lia | reflexivity]).
  - simpl. split; [lia |]. right. exists (reads w). split; [lia | reflexivity].
Qed.

Lemma handle_monotone (e : Event) (w : World) :
  nondecreasing clock ->
  stamp_in_past clock w ->
  lastSent (store w) <= lastSent (store (exec (handle clock e) w))
  /\ stamp_in_past clock (exec (handle clock e) w).
Proof.
  unfold stamp_in_past. intros Hmono Hinv.
  destruct (handle_stamp e w) as [Hr [Heq | [k [[Hk1 Hk2] Hk]]]].
  - rewrite Heq. split; [lia |].
    apply Z.le_trans with (1 := Hinv). apply Hmono. exact Hr.
  - rewrite Hk. split.
    + apply Z.le_trans with (1 := Hinv). apply Hmono. exact Hk1.
    + apply Hmono. lia.
Qed.

Lemma run_monotone (es : list Event) (w : World) :
  nondecreasing clock ->
  stamp_in_past clock w ->
  lastSent (store w) <= lastSent (store (run clock es w))
  /\ stamp_in_past clock (run clock es w).
Proof.
  intros Hmono. revert w.
  induction es as [| e es IH]; intros w Hinv; simpl.
  - split; [lia | exact Hinv].
  - destruct (handle_monotone e w Hmono Hinv) as [Hle Hinv'].
    destruct (IH _ Hinv') as [Hle' Hinv''].
    split; [lia | exact Hinv''].
Qed.

(** C9 (the stamp never goes back).  With a clock that does not go
    back and a stored stamp that is not ahead of it, along every run of
    events (start, ticks, reads, saves, test notifications) the stamp
    after a longer run is at least the stamp after any shorter one, and
    each handler either keeps the stamp or stores a reading it took. *)
Theorem C9_lastSent_monotone (w : World) (es1 es2 : list Event) (e : Event) :
  nondecreasing clock ->
  stamp_in_past clock w ->
  lastSent (store (run clock es1 w))
    <= lastSent (store (run clock (es1 ++ es2) w))
  /\ (lastSent (store (exec (handle clock e) (run clock es1 w)))
      = lastSent (store (run clock es1 w))
      \/ exists k : nat,
           (reads (run clock es1 w) <= k
            < reads (exec (handle clock e) (run clock es1 w)))%nat
           /\ lastSent (store (exec (handle clock e) (run clock es1 w)))
              = clock k).
Proof.
  intros Hmono Hinv. split.
  - rewrite run_app.
    apply run_monotone; [exact Hmono |].
    apply run_monotone; assumption.
  - apply handle_stamp.
Qed.

End Properties.

(** ** Concrete runs *)

Lemma clock_from_nondecreasing (t0 : Z) : nondecreasing (clock_from t0).
Proof. unfold nondecreasing, clock_from. intros i j Hij. lia. Qed.

(** A fresh record under an epoch clock has its stamp in the past. *)
Lemma fresh_stamp_in_past (clock : nat -> Z) :
  0 <= clock 0%nat -> stamp_in_past clock (world_at schema 0).
Proof. intros H. exact H. Qed.

(** The form offers positive intervals only. *)
Lemma interval_options_positive :
  Forall (fun m => 0 < m) interval_options.
Proof. unfold interval_options. repeat constructor. Qed.

(** Stamp 1000, 15 minutes: the reading 900999 is one millisecond
    early, the reading 901000 is on the boundary. *)
Lemma C1_threshold_witness :
  shown (exec (checkAndNotify (clock_from 900999))
              (world_at (quarter_hour 1000) 0)) = []
  /\ shown (exec (checkAndNotify (clock_from 900999))
                 (world_at (quarter_hour 1000) 1)) = [waterNotification].
Proof.
  split.
  - apply (proj1 (C1_threshold (clock_from 900999)
                    (world_at (quarter_hour 1000) 0) 1000 15
                    eq_refl eq_refl eq_refl eq_refl)).
    reflexivity.
  - apply (proj2 (C1_threshold (clock_from 900999)
                    (world_at (quarter_hour 1000) 1) 1000 15
                    eq_refl eq_refl eq_refl eq_refl)).
    reflexivity.
Defined.

Lemma C2_sentinel_suppresses_witness :
  lastSent (store (world_at schema 0)) = 0
  /\ runState (checkAndNotify (clock_from 5000)) (world_at schema 0)
     = (tt, world_at schema 0).
Proof.
  split; [reflexivity |].
  apply (C2_sentinel_suppresses (clock_from 5000) (world_at schema 0)).
  reflexivity.
Defined.

(** Ten minutes after the stamp, with an interval of fifteen. *)
Lemma C8_not_due_frame_witness :
  shown (exec (checkAndNotify (clock_from 601000))
              (world_at (quarter_hour 1000) 0)) = []
  /\ lastSent (store (exec (checkAndNotify (clock_from 601000))
                           (world_at (quarter_hour 1000) 0))) = 1000.
Proof.
  destruct (C8_not_due_frame (clock_from 601000)
              (world_at (quarter_hour 1000) 0) 1000
              eq_refl eq_refl eq_refl) as [Hs [Hl _]].
  split; [exact Hs | exact Hl].
Defined.

(** Sixteen minutes after the stamp: the tick shows the reminder and
    the stamp is the helper's own reading, 961001. *)
Lemma C4_stamp_on_fire_witness :
  shown (exec (checkAndNotify (clock_from 961000))
              (world_at (quarter_hour 1000) 0)) = [waterNotification]
  /\ lastSent (store (exec (checkAndNotify (clock_from 961000))
                           (world_at (quarter_hour 1000) 0))) = 961001.
Proof.
  apply (proj2 (proj2 (C4_stamp_on_fire (clock_from 961000)
                         (world_at (quarter_hour 1000) 0)))).
  - discriminate.
  - unfold clock_from. simpl. lia.
Defined.

(** Saving nothing when the reminder is overdue, then three ticks. *)
Lemma C5_save_resets_window_witness :
  lastSent (store (exec (save_settings (clock_from 961000) no_fields)
                        (world_at (quarter_hour 1000) 0))) = 961000
  /\ shown (run (clock_from 961000) (repeat CronTick 3)
                (exec (save_settings (clock_from 961000) no_fields)
                      (world_at (quarter_hour 1000) 0)))
     = [savedNotification].
Proof.
  destruct (C5_save_resets_window (clock_from 961000) no_fields
              (world_at (quarter_hour 1000) 0) 3) as [Hs Hq].
  split; [exact Hs |].
  apply Hq. intros k Hk.
  change (1 <= k < 4)%nat in Hk.
  change (clock_from 961000 k - 961000 < 900000).
  unfold clock_from. lia.
Defined.

(** Starting on a record whose stamp is overdue, then three ticks. *)
Lemma C6_init_resets_window_witness :
  lastSent (store (exec (initScheduler (clock_from 961000))
                        (world_at (quarter_hour 1000) 0))) = 961000
  /\ shown (run (clock_from 961000) (repeat CronTick 3)
                (exec (initScheduler (clock_from 961000))
                      (world_at (quarter_hour 1000) 0))) = [].
Proof.
  destruct (C6_init_resets_window (clock_from 961000)
              (world_at (quarter_hour 1000) 0) 3) as [Hs [_ Hq]].
  split; [exact Hs |].
  apply Hq. intros k Hk.
  change (1 <= k < 4)%nat in Hk.
  change (clock_from 961000 k - 961000 < 900000).
  unfold clock_from. lia.
Defined.

Lemma C7_save_writes_any_interval_witness :
  intervalMinutes
    (store (exec (save_settings (clock_from 1000) (handleSave 30 true))
                 (world_at schema 0))) = 30.
Proof.
  apply (proj1 (C7_save_writes_any_interval (clock_from 1000)
                  (handleSave 30 true) (world_at schema 0) 30 eq_refl)).
Defined.

Lemma C10_absent_fields_kept_witness :
  intervalMinutes
    (store (exec (save_settings (clock_from 1000) no_fields)
                 (world_at schema 0))) = 15
  /\ openAtLogin
       (store (exec (save_settings (clock_from 1000) no_fields)
                    (world_at schema 0))) = false.
Proof.
  destruct (C10_absent_fields_kept (clock_from 1000) no_fields
              (world_at schema 0)) as [Hi [Ho _]].
  split.
  - apply Hi. reflexivity.
  - apply Ho. reflexivity.
Defined.

(** Start, a tick, then a save, a test notification and a tick. *)
Lemma C9_lastSent_monotone_witness :
  lastSent (store (run (clock_from 1000) [AppReady; CronTick]
                       (world_at schema 0)))
  <= lastSent (store (run (clock_from 1000)
                          ([AppReady; CronTick]
                           ++ [SaveSettings (handleSave 5 false);
                               TestNotification; CronTick])
                          (world_at schema 0))).
Proof.
  apply (proj1 (C9_lastSent_monotone (clock_from 1000) (world_at schema 0)
                  [AppReady; CronTick]
                  [SaveSettings (handleSave 5 false);
                   TestNotification; CronTick]
                  CronTick
                  (clock_from_nondecreasing 1000)
                  (fresh_stamp_in_past (clock_from 1000)
                     ltac:(discriminate)))).
Defined.

(** ** Where the code differs from the words of the specification *)

(** The test handler does change [lastSent]: from 1000 to the reading
    961000. *)
Lemma C3_test_notification_changes_lastSent :
  lastSent (store (world_at (quarter_hour 1000) 0)) = 1000
  /\ lastSent (store (exec (test_notification (clock_from 961000))
                           (world_at (quarter_hour 1000) 0))) = 961000
  /\ lastSent (store (exec (test_notification (clock_from 961000))
                           (world_at (quarter_hour 1000) 0)))
     <> lastSent (store (world_at (quarter_hour 1000) 0)).
Proof.
  split; [reflexivity | split; [reflexivity |]].
  discriminate.
Qed.

(** A request with the interval -5 is answered with success, the
    record then holds -5, and the next tick shows the reminder one
    millisecond after the save. *)
Lemma C7_nonpositive_interval_is_stored :
  fst (runState (save_settings (clock_from 1000) (handleSave (-5) false))
                (world_at schema 0)) = {| success := true |}
  /\ intervalMinutes
       (store (exec (save_settings (clock_from 1000) (handleSave (-5) false))
                    (world_at schema 0))) = -5
  /\ shown (exec (checkAndNotify (clock_from 1000))
                 (exec (save_settings (clock_from 1000)
                                      (handleSave (-5) false))
                       (world_at schema 0)))
     = [savedNotification; waterNotification].
Proof.
  repeat split.
Qed.

(** ** More on ticks *)

Section Ticks.

Variable clock : nat -> Z.

(** The three ways a tick can end. *)
Lemma checkAndNotify_cases (w : World) :
  runState (checkAndNotify clock) w = (tt, w)
  \/ runState (checkAndNotify clock) w
     = (tt, {| store := store w; reads := S (reads w); shown := shown w;
               loginItem := loginItem w; scheduler := scheduler w |})
  \/ (lastSent (store w) <> 0
      /\ due (store w) (clock (reads w)) = true
      /\ runState (checkAndNotify clock) w
         = (tt, stamped 2 (clock (S (reads w))) w)).
Proof.
  destruct (Z.eq_dec (lastSent (store w)) 0) as [E | NE].
  - left. apply checkAndNotify_sentinel. exact E.
  - destruct (due (store w) (clock (reads w))) eqn:Hdue.
    + right. right. split; [exact NE | split; [reflexivity |]].
      apply checkAndNotify_fires; assumption.
    + right. left. apply checkAndNotify_waits; assumption.
Qed.

(** X1.  Whatever the record and the clock, a tick leaves the interval,
    the login flag, the login item and the job; it shows nothing or
    the water reminder once; and it writes the stamp only when it
    shows the reminder. *)
Theorem tick_frame (w : World) :
  intervalMinutes (store (exec (checkAndNotify clock) w))
  = intervalMinutes (store w)
  /\ openAtLogin (store (exec (checkAndNotify clock) w))
     = openAtLogin (store w)
  /\ loginItem (exec (checkAndNotify clock) w) = loginItem w
  /\ scheduler (exec (checkAndNotify clock) w) = scheduler w
  /\ ((shown (exec (checkAndNotify clock) w) = shown w
       /\ store (exec (checkAndNotify clock) w) = store w)
      \/ (shown (exec (checkAndNotify clock) w)
          = shown w ++ [waterNotification]
          /\ lastSent (store (exec (checkAndNotify clock) w))
             = clock (S (reads w)))).
Proof.
  unfold exec.
  destruct (checkAndNotify_cases w) as [H | [H | [_ [_ H]]]]; rewrite H; simpl.
  - repeat split. left. split; reflexivity.
  - repeat split. left. split; reflexivity.
  - repeat split. right. split; reflexivity.
Qed.

(** X2.  The sentinel absorbs ticks: while the stamp is 0, no number of
    ticks changes anything, the clock is not even read. *)
Theorem sentinel_absorbs_ticks (n : nat) (w : World) :
  lastSent (store w) = 0 ->
  run clock (repeat CronTick n) w = w.
Proof.
  intros H0. induction n as [| n IH]; simpl.
  - reflexivity.
  - unfold exec. rewrite (checkAndNotify_sentinel clock w H0). exact IH.
Qed.

(** X3.  A tick that is due shows the reminder once: the ticks after it
    show nothing as long as their readings are less than the interval
    after the new stamp. *)
Theorem due_tick_fires_once (n : nat) (w : World) :
  lastSent (store w) <> 0 ->
  intervalMinutes (store w) * 60 * 1000
    <= clock (reads w) - lastSent (store w) ->
  (forall k : nat, (2 + reads w <= k < 2 + reads w + n)%nat ->
     clock k - clock (S (reads w))
     < intervalMinutes (store w) * 60 * 1000) ->
  shown (run clock (repeat CronTick (S n)) w)
  = shown w ++ [waterNotification]
  /\ lastSent (store (run clock (repeat CronTick (S n)) w))
     = clock (S (reads w)).
Proof.
  intros NE Hdue Hk. simpl. unfold exec.
  rewrite (checkAndNotify_fires clock w NE (proj2 (due_true_iff _ _) Hdue)).
  simpl.
  destruct (ticks_quiet clock n (stamped 2 (clock (S (reads w))) w))
    as [Hs Hst].
  - simpl. exact Hk.
  - rewrite Hs, Hst. split; reflexivity.
Qed.

(** X4.  With an interval that is not positive, every tick shows the
    reminder: [n] ticks show [n] reminders (the clock does not go back
    and never reads 0, the stamp is set and not ahead of the clock). *)
Theorem nonpositive_interval_fires_every_tick (n : nat) (w : World) :
  nondecreasing clock ->
  (forall k : nat, clock k <> 0) ->
  intervalMinutes (store w) <= 0 ->
  lastSent (store w) <> 0 ->
  stamp_in_past clock w ->
  shown (run clock (repeat CronTick n) w)
  = shown w ++ repeat waterNotification n.
Proof.
  intros Hmono Hnz. revert w.
  induction n as [| n IH]; intros w Hint NE Hpast; simpl.
  - rewrite app_nil_r. reflexivity.
  - unfold stamp_in_past in Hpast.
    assert (Hdue : due (store w) (clock (reads w)) = true)
      by (apply due_true_iff; lia).
    unfold exec. rewrite (checkAndNotify_fires clock w NE Hdue). simpl.
    rewrite IH.
    + simpl. rewrite <- app_assoc. reflexivity.
    + simpl. exact Hint.
    + simpl. apply Hnz.
    + unfold stamp_in_past. simpl. apply Hmono. lia.
Qed.

(** X5.  A test notification puts off the reminder: after it, ticks
    show nothing as long as their readings are less than the interval
    after the reading of the test, however overdue the reminder was. *)
Theorem test_notification_postpones (n : nat) (w : World) :
  (forall k : nat, (S (reads w) <= k < S (reads w) + n)%nat ->
     clock k - clock (reads w) < intervalMinutes (store w) * 60 * 1000) ->
  shown (run clock (repeat CronTick n) (exec (test_notification clock) w))
  = shown w ++ [waterNotification].
Proof.
  intros Hk. unfold exec at 1. rewrite test_notification_run. simpl.
  destruct (ticks_quiet clock n (stamped 1 (clock (reads w)) w)) as [Hs _].
  - simpl. exact Hk.
  - rewrite Hs. reflexivity.
Qed.

End Ticks.

(** ** More on runs of events *)

Section Runs.

Variable clock : nat -> Z.

Lemma app_ready_run (w : World) :
  runState (app_ready clock) w
  = (tt, {| store := {| intervalMinutes := intervalMinutes (store w);
                        lastSent := clock (reads w);
                        openAtLogin := openAtLogin (store w) |};
            reads := S (reads w);
            shown := shown w;
            loginItem := Some (openAtLogin (store w));
            scheduler := Some (mkCron "* * * * *") |}).
Proof. reflexivity. Qed.

Lemma run_stamp_positive (es : list Event) (w : World) :
  (forall k : nat, 0 < clock k) ->
  0 < lastSent (store w) ->
  0 < lastSent (store (run clock es w)).
Proof.
  intros Hpos. revert w.
  induction es as [| e es IH]; intros w Hw; simpl.
  - exact Hw.
  - apply IH.
    destruct (handle_stamp clock e w) as [_ [Heq | [k [_ Hk]]]].
    + rewrite Heq. exact Hw.
    + rewrite Hk. apply Hpos.
Qed.

(** X6.  Once the application has started under a clock that reads
    positive times, the stamp is positive after every run of events:
    the sentinel 0 is met only before the start. *)
Theorem stamp_positive_after_start (es : list Event) (w : World) :
  (forall k : nat, 0 < clock k) ->
  0 < lastSent (store (run clock (AppReady :: es) w)).
Proof.
  intros Hpos. simpl. apply run_stamp_positive; [exact Hpos |].
  unfold exec, handle. rewrite app_ready_run. simpl. apply Hpos.
Qed.

Lemma handle_login_item (e : Event) (w : World) :
  loginItem w = Some (openAtLogin (store w)) ->
  loginItem (exec (handle clock e) w)
  = Some (openAtLogin (store (exec (handle clock e) w))).
Proof.
  intros Hw. destruct e as [| | | p |]; unfold exec, handle.
  - rewrite app_ready_run. reflexivity.
  - destruct (checkAndNotify_cases clock w) as [H | [H | [_ [_ H]]]];
      rewrite H; simpl; exact Hw.
  - simpl. exact Hw.
  - destruct p as [[m |] l [b |]]; simpl; try reflexivity; exact Hw.
  - simpl. exact Hw.
Qed.

Lemma run_login_item (es : list Event) (w : World) :
  loginItem w = Some (openAtLogin (store w)) ->
  loginItem (run clock es w) = Some (openAtLogin (store (run clock es w))).
Proof.
  revert w. induction es as [| e es IH]; intros w Hw; simpl.
  - exact Hw.
  - apply IH. apply handle_login_item. exact Hw.
Qed.

(** X7.  After the start, the login item given to the operating system
    is the stored [openAtLogin], after every run of events: a save that
    changes the flag tells the system, and nothing else changes it. *)
Theorem login_item_follows_store (es : list Event) (w : World) :
  loginItem (run clock (AppReady :: es) w)
  = Some (openAtLogin (store (run clock (AppReady :: es) w))).
Proof.
  simpl. apply run_login_item.
  unfold exec, handle. rewrite app_ready_run. reflexivity.
Qed.

(** X8.  Two saves in a row are one save of the two requests merged,
    the later one first: each field is the later request's if present,
    else the earlier one's, else the stored one; the stamp is the
    reading of the second save, and both confirmations are shown. *)
Theorem save_twice_merges (p1 p2 : PartialSettings) (w : World) :
  intervalMinutes
    (store (exec (save_settings clock p2) (exec (save_settings clock p1) w)))
  = match p_intervalMinutes p2, p_intervalMinutes p1 with
    | Some m, _ => m
    | None, Some m => m
    | None, None => intervalMinutes (store w)
    end
  /\ openAtLogin
       (store (exec (save_settings clock p2)
                    (exec (save_settings clock p1) w)))
     = match p_openAtLogin p2, p_openAtLogin p1 with
       | Some b, _ => b
       | None, Some b => b
       | None, None => openAtLogin (store w)
       end
  /\ lastSent
       (store (exec (save_settings clock p2)
                    (exec (save_settings clock p1) w)))
     = clock (S (reads w))
  /\ shown (exec (save_settings clock p2) (exec (save_settings clock p1) w))
     = shown w ++ [savedNotification; savedNotification].
Proof.
  unfold exec. rewrite (save_settings_run clock p1 w).
  rewrite save_settings_run. simpl.
  destruct p1 as [[m1 |] l1 [b1 |]], p2 as [[m2 |] l2 [b2 |]]; simpl;
    rewrite <- app_assoc; repeat split.
Qed.

End Runs.

(** ** The settings window *)

Lemma existsb_eqb_last (id : nat) (l : list nat) :
  existsb (Nat.eqb id) (l ++ [id]) = true.
Proof.
  rewrite existsb_app. simpl. rewrite Nat.eqb_refl.
  rewrite Bool.orb_true_r. reflexivity.
Qed.

Lemma openSettingsWindow_run (sh : Shell) :
  runStateT openSettingsWindow sh
  = inr (tt, {| world := world sh; tray := tray sh;
                settingsWindow := Some (created sh);
                openWindows := openWindows sh ++ [created sh];
                created := S (created sh);
                focused := focused sh; handlers := handlers sh;
                stopped := stopped sh; quitting := quitting sh |}).
Proof.
  unfold openSettingsWindow, window_method, isDestroyed. simpl.
  repeat (rewrite existsb_eqb_last; simpl). reflexivity.
Qed.

Lemma createSettingsWindow_focus (sh : Shell) (id : nat) :
  settingsWindow sh = Some id ->
  isDestroyed id sh = false ->
  runStateT createSettingsWindow sh
  = inr (tt, {| world := world sh; tray := tray sh;
                settingsWindow := Some id;
                openWindows := openWindows sh; created := created sh;
                focused := focused sh ++ [id]; handlers := handlers sh;
                stopped := stopped sh; quitting := quitting sh |}).
Proof.
  intros Href Hlive. unfold createSettingsWindow. simpl.
  rewrite Href, Hlive. simpl. rewrite Hlive, Href. reflexivity.
Qed.

Lemma createSettingsWindow_open (sh : Shell) :
  (settingsWindow sh = None
   \/ exists id : nat, settingsWindow sh = Some id
                       /\ isDestroyed id sh = true) ->
  runStateT createSettingsWindow sh = runStateT openSettingsWindow sh.
Proof.
  intros [Href | [id [Href Hgone]]]; unfold createSettingsWindow; simpl;
    rewrite Href; [| rewrite Hgone]; reflexivity.
Qed.

(** After [createSettingsWindow] the reference names an open window. *)
Lemma createSettingsWindow_leaves_live (sh : Shell) :
  exists (sh' : Shell) (id : nat),
    runStateT createSettingsWindow sh = inr (tt, sh')
    /\ settingsWindow sh' = Some id
    /\ isDestroyed id sh' = false.
Proof.
  assert (Hnew : runStateT createSettingsWindow sh
                 = runStateT openSettingsWindow sh ->
                 exists (sh' : Shell) (id : nat),
                   runStateT createSettingsWindow sh = inr (tt, sh')
                   /\ settingsWindow sh' = Some id
                   /\ isDestroyed id sh' = false).
  { intros Hopen. rewrite Hopen, openSettingsWindow_run.
    eexists. exists (created sh).
    split; [reflexivity |]. split; [reflexivity |].
    unfold isDestroyed. simpl. rewrite existsb_eqb_last. reflexivity. }
  destruct (settingsWindow sh) as [id |] eqn:Href.
  - destruct (isDestroyed id sh) eqn:Hgone.
    + apply Hnew. apply createSettingsWindow_open.
      right. exists id. split; assumption.
    + eexists. exists id.
      rewrite (createSettingsWindow_focus sh id Href Hgone).
      split; [reflexivity |]. split; [reflexivity | exact Hgone].
  - apply Hnew. apply createSettingsWindow_open. left. exact Href.
Qed.


(** X10.  Asked twice for the settings window, the application makes
    at most one: the second call makes no window, it focuses the one
    the first call left in the reference. *)
Theorem createSettingsWindow_twice (sh : Shell) :
  exists (sh1 : Shell) (id : nat),
    runStateT createSettingsWindow sh = inr (tt, sh1)
    /\ settingsWindow sh1 = Some id
    /\ runStateT (createSettingsWindow ;; createSettingsWindow) sh
       = inr (tt, {| world := world sh1; tray := tray sh1;
                     settingsWindow := Some id;
                     openWindows := openWindows sh1;
                     created := created sh1;
                     focused := focused sh1 ++ [id];
                     handlers := handlers sh1;
                     stopped := stopped sh1; quitting := quitting sh1 |}).
Proof.
  destruct (createSettingsWindow_leaves_live sh)
    as [sh1 [id [Hrun [Href Hlive]]]].
  exists sh1, id. split; [exact Hrun | split; [exact Href |]].
  change (runStateT (createSettingsWindow ;; createSettingsWindow) sh)
    with (match runStateT createSettingsWindow sh with
          | inl e => inl e
          | inr (_, s) => runStateT createSettingsWindow s
          end).
  rewrite Hrun. rewrite (createSettingsWindow_focus sh1 id Href Hlive).
  reflexivity.
Qed.

Lemma live_single (id : nat) (sh : Shell) :
  openWindows sh = [id] -> isDestroyed id sh = false.
Proof.
  intros H. unfold isDestroyed. rewrite H. simpl.
  rewrite Nat.eqb_refl. reflexivity.
Qed.

Lemma window_closed_run (sh : Shell) (id : nat) :
  openWindows sh = [id] ->
  runStateT (window_closed id) sh
  = inr (tt, {| world := world sh; tray := tray sh;
                settingsWindow := None;
                openWindows := []; created := created sh;
                focused := focused sh; handlers := handlers sh;
                stopped := stopped sh; quitting := quitting sh |}).
Proof.
  intros Hopen. unfold window_closed. simpl.
  rewrite (live_single id sh Hopen). simpl.
  rewrite Hopen. simpl. rewrite Nat.eqb_refl. reflexivity.
Qed.

Lemma window_closed_absent (sh : Shell) (id : nat) :
  isDestroyed id sh = true ->
  runStateT (window_closed id) sh = inr (tt, sh).
Proof.
  intros Hgone. unfold window_closed. simpl. rewrite Hgone. reflexivity.
Qed.

(** X11.  When the one settings window is closed and the settings are
    asked for again, a new window is made (the ['closed'] handler has
    cleared the reference), and it is the only one open. *)
Theorem close_then_open_makes_new_window (sh : Shell) (id : nat) :
  settingsWindow sh = Some id ->
  openWindows sh = [id] ->
  runStateT (window_closed id ;; createSettingsWindow) sh
  = inr (tt, {| world := world sh; tray := tray sh;
                settingsWindow := Some (created sh);
                openWindows := [created sh];
                created := S (created sh);
                focused := focused sh; handlers := handlers sh;
                stopped := stopped sh; quitting := quitting sh |}).
Proof.
  intros Href Hopen.
  change (runStateT (window_closed id ;; createSettingsWindow) sh)
    with (match runStateT (window_closed id) sh with
          | inl e => inl e
          | inr (_, s) => runStateT createSettingsWindow s
          end).
  rewrite (window_closed_run sh id Hopen).
  rewrite createSettingsWindow_open by (left; reflexivity).
  rewrite openSettingsWindow_run. reflexivity.
Qed.

(** ** The end of the process *)

(** X12.  The ['before-quit'] handler can run at any time and any
    number of times: without a job it changes nothing, with a job it
    stops it, it never throws, and running it twice is running it
    once. *)
Theorem before_quit_safe (sh : Shell) :
  (scheduler (world sh) = None -> runStateT before_quit sh = inr (tt, sh))
  /\ (scheduler (world sh) <> None ->
      runStateT before_quit sh = inr (tt, set_stopped true sh))
  /\ runStateT (before_quit ;; before_quit) sh = runStateT before_quit sh.
Proof.
  unfold before_quit, scheduler_stop. simpl.
  destruct (scheduler (world sh)) as [c |] eqn:Hs; simpl;
    repeat (rewrite Hs; simpl).
  - split; [discriminate | split; reflexivity].
  - split; [reflexivity | split; [congruence | reflexivity]].
Qed.

(** ** The running application *)

Section Running.

Variable clock : nat -> Z.

Lemma liftW_run {A : Type} (c : state World A) (sh : Shell) :
  runStateT (liftW c) sh
  = inr (fst (runState c (world sh)),
         set_world (snd (runState c (world sh))) sh).
Proof.
  unfold liftW. simpl. destruct (runState c (world sh)). reflexivity.
Qed.

Lemma set_world_same (sh : Shell) : set_world (world sh) sh = sh.
Proof. destruct sh. reflexivity. Qed.

Lemma shell_ok_set_world (w : World) (sh : Shell) :
  scheduler w = scheduler (world sh) ->
  shell_ok sh -> shell_ok (set_world w sh).
Proof.
  unfold shell_ok, window_ok. simpl. intros Hs H. rewrite Hs. exact H.
Qed.

Lemma checkAndNotify_keeps (w : World) :
  scheduler (exec (checkAndNotify clock) w) = scheduler w
  /\ intervalMinutes (store (exec (checkAndNotify clock) w))
     = intervalMinutes (store w).
Proof.
  unfold exec.
  destruct (checkAndNotify_cases clock w) as [H | [H | [_ [_ H]]]];
    rewrite H; split; reflexivity.
Qed.

Lemma cron_minute_run (sh : Shell) :
  scheduler (world sh) <> None ->
  runStateT (cron_minute clock) sh
  = inr (tt, if stopped sh then sh
             else set_world (exec (checkAndNotify clock) (world sh)) sh).
Proof.
  intros Hs. unfold cron_minute. simpl.
  destruct (scheduler (world sh)) as [c |]; [| congruence].
  destruct (stopped sh); [reflexivity |].
  rewrite liftW_run. unfold exec.
  destruct (runState (checkAndNotify clock) (world sh)) as [[] w].
  reflexivity.
Qed.

Lemma createSettingsWindow_ok (sh : Shell) :
  shell_ok sh ->
  exists sh' : Shell,
    runStateT createSettingsWindow sh = inr (tt, sh')
    /\ shell_ok sh' /\ world sh' = world sh
    /\ tray sh' = tray sh /\ stopped sh' = stopped sh.
Proof.
  intros [Hw Hrest]. unfold window_ok in Hw.
  destruct (settingsWindow sh) as [id |] eqn:Href.
  - eexists.
    rewrite (createSettingsWindow_focus sh id Href (live_single id sh Hw)).
    split; [reflexivity |]. split; [| repeat split].
    split; [| exact Hrest]. unfold window_ok. simpl. exact Hw.
  - eexists.
    rewrite createSettingsWindow_open, openSettingsWindow_run
      by (left; exact Href).
    split; [reflexivity |]. split; [| repeat split].
    split; [| exact Hrest]. unfold window_ok. simpl. rewrite Hw. reflexivity.
Qed.

Lemma app_quit_ok (sh : Shell) :
  shell_ok sh ->
  exists sh' : Shell,
    runStateT app_quit sh = inr (tt, sh')
    /\ shell_ok sh' /\ world sh' = world sh
    /\ tray sh' = tray sh /\ stopped sh' = true.
Proof.
  intros [Hw [Hg [Hsv [Ht [Hs Hq]]]]].
  unfold app_quit, before_quit, scheduler_stop. simpl.
  repeat (rewrite Hs; simpl).
  eexists. split; [reflexivity |].
  split; [| repeat split].
  unfold shell_ok, window_ok. simpl.
  repeat (split; [assumption |]). reflexivity.
Qed.

Lemma window_closed_ok (sh : Shell) (id : nat) :
  shell_ok sh ->
  exists sh' : Shell,
    runStateT (window_closed id) sh = inr (tt, sh')
    /\ shell_ok sh' /\ world sh' = world sh
    /\ tray sh' = tray sh /\ stopped sh' = stopped sh.
Proof.
  intros Hok. destruct (isDestroyed id sh) eqn:Hgone.
  - exists sh. rewrite (window_closed_absent sh id Hgone).
    split; [reflexivity | split; [exact Hok | repeat split]].
  - destruct Hok as [Hw Hrest]. unfold window_ok in Hw.
    assert (Hopen : openWindows sh = [id]).
    { unfold isDestroyed in Hgone.
      destruct (settingsWindow sh) as [id' |]; rewrite Hw in Hgone;
        simpl in Hgone; [| discriminate].
      destruct (Nat.eqb_spec id id') as [E | NE]; [| discriminate].
      rewrite Hw, E. reflexivity. }
    eexists. rewrite (window_closed_run sh id Hopen).
    split; [reflexivity |]. split; [| repeat split].
    split; [| exact Hrest]. unfold window_ok. reflexivity.
Qed.

(** What every delivered event keeps, and what it keeps unless it asks
    to quit. *)
Lemma deliver_ok (e : ShellEvent) (sh : Shell) :
  shell_ok sh ->
  exists sh' : Shell,
    runStateT (deliver clock e) sh = inr (tt, sh')
    /\ shell_ok sh'
    /\ intervalMinutes (store (world sh'))
       = intervalMinutes (store (world sh))
    /\ tray sh' = tray sh
    /\ (stopped sh' = stopped sh
        \/ (stopped sh' = true
            /\ (e = QuitRequest
                \/ exists (i : nat) (t : Tray) (l : string),
                     e = MenuClick i /\ tray sh = Some t
                     /\ nth_error (contextMenu t) i
                        = Some (Item l QuitApp)))).
Proof.
  intros Hok.
  assert (Hstay : exists sh' : Shell,
            inr (tt, sh) = inr (A := Error) (tt, sh')
            /\ shell_ok sh'
            /\ intervalMinutes (store (world sh'))
               = intervalMinutes (store (world sh))
            /\ tray sh' = tray sh
            /\ stopped sh' = stopped sh).
  { exists sh. split; [reflexivity |]. split; [exact Hok |].
    split; [reflexivity |]. split; reflexivity. }
  assert (Hwin : exists sh' : Shell,
            runStateT createSettingsWindow sh = inr (tt, sh')
            /\ shell_ok sh'
            /\ intervalMinutes (store (world sh'))
               = intervalMinutes (store (world sh))
            /\ tray sh' = tray sh
            /\ stopped sh' = stopped sh).
  { destruct (createSettingsWindow_ok sh Hok)
      as [sh' [Hr [Hok' [Hwd [Htr Hst]]]]].
    exists sh'. rewrite Hwd. split; [exact Hr |]. split; [exact Hok' |].
    split; [reflexivity |]. split; assumption. }
  assert (Hquit : exists sh' : Shell,
            runStateT app_quit sh = inr (tt, sh')
            /\ shell_ok sh'
            /\ intervalMinutes (store (world sh'))
               = intervalMinutes (store (world sh))
            /\ tray sh' = tray sh
            /\ stopped sh' = true).
  { destruct (app_quit_ok sh Hok) as [sh' [Hr [Hok' [Hwd [Htr Hst]]]]].
    exists sh'. rewrite Hwd. split; [exact Hr |]. split; [exact Hok' |].
    split; [reflexivity |]. split; assumption. }
  destruct e as [| | i | | id |]; unfold deliver.
  - destruct Hok as [Hw [Hg [Hsv [Ht [Hs Hq]]]]].
    rewrite cron_minute_run by (rewrite Hs; discriminate).
    eexists. split; [reflexivity |].
    destruct (stopped sh) eqn:Hst.
    + split; [| split; [reflexivity | split; [reflexivity |]]].
      * unfold shell_ok. repeat (split; [assumption |]). congruence.
      * left. exact Hst.
    + destruct (checkAndNotify_keeps (world sh)) as [Hk1 Hk2].
      split; [| split; [exact Hk2 | split; [reflexivity |]]].
      * apply shell_ok_set_world; [exact Hk1 |].
        unfold shell_ok. repeat (split; [assumption |]). congruence.
      * left. exact Hst.
  - unfold tray_click. simpl.
    destruct (tray sh);
      [destruct Hwin as [sh' [H1 [H2 [H3 [H4 H5]]]]]
      | destruct Hstay as [sh' [H1 [H2 [H3 [H4 H5]]]]]];
      exists sh'; repeat (split; [assumption |]); left; exact H5.
  - unfold menu_click. simpl.
    destruct (tray sh) as [t |] eqn:Htray.
    + destruct (nth_error (contextMenu t) i) as [[l [|] |] |] eqn:Hnth;
        simpl.
      * destruct Hwin as [sh' [H1 [H2 [H3 [H4 H5]]]]].
        exists sh'.
        repeat (split; [assumption |]). left. exact H5.
      * destruct Hquit as [sh' [H1 [H2 [H3 [H4 H5]]]]].
        exists sh'.
        repeat (split; [assumption |]). right. split; [exact H5 |].
        right. exists i, t, l. split; [reflexivity |].
        split; [first [exact Htray | reflexivity] | exact Hnth].
      * destruct Hstay as [sh' [H1 [H2 [H3 [H4 H5]]]]].
        exists sh'.
        repeat (split; [assumption |]). left. exact H5.
      * destruct Hstay as [sh' [H1 [H2 [H3 [H4 H5]]]]].
        exists sh'.
        repeat (split; [assumption |]). left. exact H5.
    + destruct Hstay as [sh' [H1 [H2 [H3 [H4 H5]]]]].
      exists sh'.
      repeat (split; [assumption |]). left. exact H5.
  - unfold on_activate. simpl.
    destruct (Nat.eqb (List.length (openWindows sh)) 0);
      [destruct Hwin as [sh' [H1 [H2 [H3 [H4 H5]]]]]
      | destruct Hstay as [sh' [H1 [H2 [H3 [H4 H5]]]]]];
      exists sh'; repeat (split; [assumption |]); left; exact H5.
  - destruct (window_closed_ok sh id Hok)
      as [sh' [Hr [Hok' [Hwd [Htr Hst]]]]].
    exists sh'. rewrite Hwd. split; [exact Hr |]. split; [exact Hok' |].
    split; [reflexivity |]. split; [exact Htr |]. left. exact Hst.
  - destruct Hquit as [sh' [H1 [H2 [H3 [H4 H5]]]]].
    exists sh'. repeat (split; [assumption |]). right.
    split; [exact H5 | left; reflexivity].
Qed.

End Running.

(** ** The bridge and the form *)

Section Bridge.

Variable clock : nat -> Z.

Lemma getSettings_served (sh : Shell) :
  find_handler "get-settings" (handlers sh) = Some OnGetSettings ->
  runStateT (Renderer.getSettings clock) sh = inr (store (world sh), sh).
Proof.
  intros Hg. unfold Renderer.getSettings, ipc_invoke. simpl.
  rewrite Hg. simpl. rewrite set_world_same. reflexivity.
Qed.

Lemma saveSettings_served (sh : Shell) (settings : Payload) :
  find_handler "save-settings" (handlers sh) = Some OnSaveSettings ->
  runStateT (Renderer.saveSettings clock settings) sh
  = inr (VReply {| success := true |},
         set_world (exec (save_settings clock (partial settings)) (world sh))
                   sh).
Proof.
  intros Hs. unfold Renderer.saveSettings, ipc_invoke. simpl.
  rewrite Hs.
  destruct settings as [[[m |] l [b |]] o]; reflexivity.
Qed.

Lemma testNotification_served (sh : Shell) :
  find_handler "test-notification" (handlers sh) = Some OnTestNotification ->
  runStateT (Renderer.testNotification clock) sh
  = inr (VReply {| success := true |},
         set_world (exec (test_notification clock) (world sh)) sh).
Proof.
  intros Ht. unfold Renderer.testNotification, ipc_invoke. simpl.
  rewrite Ht. reflexivity.
Qed.

Lemma ready_shell_ok (s : Settings) : shell_ok (ready_shell clock s).
Proof.
  unfold shell_ok, window_ok. repeat split.
Qed.

End Bridge.

Section Whole.

Variable clock : nat -> Z.
Variable bridge : bool.

Lemma interval_select_positive (i : nat) (v : Z) (l : string) :
  nth_error interval_select i = Some (v, l) -> 0 < v.
Proof.
  intros H. apply nth_error_In in H.
  assert (Hall : Forall (fun p : Z * string => 0 < fst p) interval_select)
    by (unfold interval_select; repeat constructor).
  rewrite Forall_forall in Hall. exact (Hall (v, l) H).
Qed.

Lemma loadSettings_run (f : Form) (sh : Shell) :
  shell_ok sh ->
  Renderer.loadSettings clock bridge f sh
  = if bridge then
      ({| f_intervalMinutes := intervalMinutes (store (world sh));
          f_openAtLogin := openAtLogin (store (world sh));
          f_openSettingsOnLaunch := None;
          isLoading := false; isSaving := isSaving f;
          console_error := console_error f |}, sh)
    else
      ({| f_intervalMinutes := f_intervalMinutes f;
          f_openAtLogin := f_openAtLogin f;
          f_openSettingsOnLaunch := f_openSettingsOnLaunch f;
          isLoading := false; isSaving := isSaving f;
          console_error :=
            console_error f
            ++ [("Failed to load settings:"%string,
                 Thrown
                   "electronAPI not found - preload script may not have loaded")]
       |}, sh).
Proof.
  intros [_ [Hg _]]. unfold Renderer.loadSettings.
  destruct bridge; [| reflexivity].
  rewrite (getSettings_served clock sh Hg). reflexivity.
Qed.

Lemma handleSave_run (f : Form) (sh : Shell) :
  shell_ok sh ->
  Renderer.handleSave clock bridge f sh
  = if bridge then
      ({| f_intervalMinutes := f_intervalMinutes f;
          f_openAtLogin := f_openAtLogin f;
          f_openSettingsOnLaunch := f_openSettingsOnLaunch f;
          isLoading := isLoading f; isSaving := false;
          console_error := console_error f |},
       set_world
         (exec (save_settings clock
                  (handleSave (f_intervalMinutes f) (f_openAtLogin f)))
               (world sh)) sh)
    else
      ({| f_intervalMinutes := f_intervalMinutes f;
          f_openAtLogin := f_openAtLogin f;
          f_openSettingsOnLaunch := f_openSettingsOnLaunch f;
          isLoading := isLoading f; isSaving := false;
          console_error :=
            console_error f
            ++ [("Failed to save settings:"%string, TypeError)] |}, sh).
Proof.
  intros [_ [_ [Hs _]]]. unfold Renderer.handleSave.
  destruct bridge; [| reflexivity].
  rewrite (saveSettings_served clock sh _ Hs). reflexivity.
Qed.

Lemma handleTest_run (f : Form) (sh : Shell) :
  shell_ok sh ->
  Renderer.handleTest clock bridge f sh
  = if bridge then
      (f, set_world (exec (test_notification clock) (world sh)) sh)
    else
      ({| f_intervalMinutes := f_intervalMinutes f;
          f_openAtLogin := f_openAtLogin f;
          f_openSettingsOnLaunch := f_openSettingsOnLaunch f;
          isLoading := isLoading f; isSaving := isSaving f;
          console_error :=
            console_error f
            ++ [("Failed to test notification:"%string, TypeError)] |}, sh).
Proof.
  intros [_ [_ [_ [Ht _]]]]. unfold Renderer.handleTest.
  destruct bridge; [| reflexivity].
  rewrite (testNotification_served clock sh Ht). reflexivity.
Qed.

Lemma exec_save_keeps (p : PartialSettings) (w : World) :
  scheduler (exec (save_settings clock p) w) = scheduler w.
Proof. unfold exec. rewrite save_settings_run. reflexivity. Qed.

Lemma exec_test_keeps (w : World) :
  scheduler (exec (test_notification clock) w) = scheduler w
  /\ intervalMinutes (store (exec (test_notification clock) w))
     = intervalMinutes (store w).
Proof. unfold exec. rewrite test_notification_run. split; reflexivity. Qed.

Lemma exec_save_form (m : Z) (b : bool) (w : World) :
  store (exec (save_settings clock (handleSave m b)) w)
  = {| intervalMinutes := m; lastSent := clock (reads w);
       openAtLogin := b |}
  /\ loginItem (exec (save_settings clock (handleSave m b)) w) = Some b
  /\ shown (exec (save_settings clock (handleSave m b)) w)
     = shown w ++ [savedNotification].
Proof. unfold exec. rewrite save_settings_run. repeat split. Qed.

Lemma form_step_shell_ok (e : FormEvent) (f : Form) (sh : Shell) :
  shell_ok sh ->
  shell_ok (snd (Renderer.form_step clock bridge e f sh)).
Proof.
  intros Hok.
  destruct e as [| i | b | b | |]; unfold Renderer.form_step.
  - rewrite (loadSettings_run _ sh Hok). destruct bridge; exact Hok.
  - destruct (isLoading f); [exact Hok |].
    destruct (nth_error interval_select i) as [[v l] |]; exact Hok.
  - destruct (isLoading f); exact Hok.
  - destruct (isLoading f); exact Hok.
  - destruct (isLoading f); [exact Hok |].
    destruct (isSaving f); [exact Hok |].
    rewrite (handleSave_run f sh Hok).
    destruct bridge; [| exact Hok]. cbn [snd].
    apply shell_ok_set_world; [| exact Hok].
    apply exec_save_keeps.
  - destruct (isLoading f); [exact Hok |].
    rewrite (handleTest_run f sh Hok).
    destruct bridge; [| exact Hok]. cbn [snd].
    apply shell_ok_set_world; [| exact Hok].
    apply exec_test_keeps.
Qed.

Lemma form_step_positive (e : FormEvent) (f : Form) (sh : Shell) :
  shell_ok sh ->
  0 < f_intervalMinutes f ->
  0 < intervalMinutes (store (world sh)) ->
  0 < f_intervalMinutes (fst (Renderer.form_step clock bridge e f sh))
  /\ 0 < intervalMinutes
           (store (world (snd (Renderer.form_step clock bridge e f sh)))).
Proof.
  intros Hok Hf Hs.
  destruct e as [| i | b | b | |]; unfold Renderer.form_step.
  - rewrite (loadSettings_run _ sh Hok).
    destruct bridge; simpl; split; (exact Hs || reflexivity).
  - destruct (isLoading f); [split; assumption |].
    destruct (nth_error interval_select i) as [[v l] |] eqn:Hi;
      simpl; [| split; assumption].
    split; [exact (interval_select_positive i v l Hi) | exact Hs].
  - destruct (isLoading f); split; assumption.
  - destruct (isLoading f); split; assumption.
  - destruct (isLoading f); [split; assumption |].
    destruct (isSaving f); [split; assumption |].
    rewrite (handleSave_run f sh Hok).
    destruct bridge; cbn [fst snd f_intervalMinutes world set_world];
      [| split; assumption].
    destruct (exec_save_form (f_intervalMinutes f) (f_openAtLogin f)
                (world sh)) as [Hst _].
    rewrite Hst. split; assumption.
  - destruct (isLoading f); [split; assumption |].
    rewrite (handleTest_run f sh Hok).
    destruct bridge; cbn [fst snd f_intervalMinutes world set_world];
      [| split; assumption].
    destruct (exec_test_keeps (world sh)) as [_ Hi].
    rewrite Hi. split; assumption.
Qed.

End Whole.

(** ** Runs of the whole application *)

Section Application_runs.

Variable clock : nat -> Z.
Variable bridge : bool.

Lemma form_step_keeps (e : FormEvent) (f : Form) (sh : Shell) :
  shell_ok sh ->
  tray (snd (Renderer.form_step clock bridge e f sh)) = tray sh
  /\ stopped (snd (Renderer.form_step clock bridge e f sh)) = stopped sh.
Proof.
  intros Hok.
  destruct e as [| i | b | b | |]; unfold Renderer.form_step.
  - rewrite (loadSettings_run clock bridge _ sh Hok).
    destruct bridge; split; reflexivity.
  - destruct (isLoading f); [split; reflexivity |].
    destruct (nth_error interval_select i) as [[v l] |]; split; reflexivity.
  - destruct (isLoading f); split; reflexivity.
  - destruct (isLoading f); split; reflexivity.
  - destruct (isLoading f); [split; reflexivity |].
    destruct (isSaving f); [split; reflexivity |].
    rewrite (handleSave_run clock bridge f sh Hok).
    destruct bridge; split; reflexivity.
  - destruct (isLoading f); [split; reflexivity |].
    rewrite (handleTest_run clock bridge f sh Hok).
    destruct bridge; split; reflexivity.
Qed.

Lemma form_step_quiet (e : FormEvent) (f : Form) (sh : Shell) :
  shell_ok sh ->
  bridge = true ->
  console_error f = [] ->
  console_error (fst (Renderer.form_step clock bridge e f sh)) = [].
Proof.
  intros Hok Hb Hf.
  destruct e as [| i | b | b | |]; unfold Renderer.form_step.
  - rewrite (loadSettings_run clock bridge _ sh Hok), Hb. reflexivity.
  - destruct (isLoading f); [exact Hf |].
    destruct (nth_error interval_select i) as [[v l] |]; exact Hf.
  - destruct (isLoading f); exact Hf.
  - destruct (isLoading f); exact Hf.
  - destruct (isLoading f); [exact Hf |].
    destruct (isSaving f); [exact Hf |].
    rewrite (handleSave_run clock bridge f sh Hok), Hb. exact Hf.
  - destruct (isLoading f); [exact Hf |].
    rewrite (handleTest_run clock bridge f sh Hok), Hb. exact Hf.
Qed.

(** On the tray that [createTray] builds, the only entry that quits is
    the third. *)
Lemma quit_entry_is_third (s : Settings) (i : nat) (t : Tray) (l : string) :
  tray (ready_shell clock s) = Some t ->
  nth_error (contextMenu t) i = Some (Item l QuitApp) ->
  i = 2%nat.
Proof.
  intros Ht Hn. injection Ht as <-. simpl in Hn.
  destruct i as [| [| [| i]]]; simpl in Hn; try discriminate.
  - reflexivity.
  - destruct i; discriminate.
Qed.

Lemma sys_run_ok (es : list SysEvent) (f : Form) (sh : Shell) :
  shell_ok sh ->
  exists (f' : Form) (sh' : Shell),
    sys_run clock bridge es (f, sh) = inr (f', sh')
    /\ shell_ok sh'
    /\ tray sh' = tray sh
    /\ (forall s : Settings,
          tray sh = tray (ready_shell clock s) ->
          forallb (fun e => negb (asks_quit e)) es = true ->
          stopped sh' = stopped sh)
    /\ (0 < f_intervalMinutes f ->
        0 < intervalMinutes (store (world sh)) ->
        0 < f_intervalMinutes f'
        /\ 0 < intervalMinutes (store (world sh')))
    /\ (bridge = true -> console_error f = [] -> console_error f' = []).
Proof.
  revert f sh. induction es as [| e es IH]; intros f sh Hok.
  - exists f, sh. simpl. split; [reflexivity |]. split; [exact Hok |].
    split; [reflexivity |]. split; [reflexivity |].
    split; [split; assumption | intros _ H; exact H].
  - destruct e as [e | e].
    + destruct (deliver_ok clock e sh Hok)
        as [sh1 [Hr [Hok1 [Hint [Htr Hst]]]]].
      destruct (IH f sh1 Hok1) as [f' [sh' [Hrun [Hok' [Htr' [Hst' [Hp Hc]]]]]]].
      exists f', sh'. cbn [sys_run sys_step snd fst]. rewrite Hr.
      split; [exact Hrun |]. split; [exact Hok' |].
      split; [congruence |]. split; [| split].
      * intros s Hs Hall. cbn [forallb] in Hall.
        apply andb_prop in Hall. destruct Hall as [He Hes].
        rewrite (Hst' s); [| rewrite Htr; exact Hs | exact Hes].
        destruct Hst as [Hsame | [_ [-> | [i [t [l [-> [Ht Hn]]]]]]]].
        -- exact Hsame.
        -- discriminate He.
        -- rewrite Hs in Ht.
           rewrite (quit_entry_is_third s i t l Ht Hn) in He.
           discriminate He.
      * intros Hf Hs. apply Hp; [exact Hf | rewrite Hint; exact Hs].
      * exact Hc.
    + pose proof (form_step_shell_ok clock bridge e f sh Hok) as Hok1.
      destruct (form_step_keeps e f sh Hok) as [Htr Hst].
      pose proof (form_step_positive clock bridge e f sh Hok) as Hpos.
      pose proof (form_step_quiet e f sh Hok) as Hq.
      cbn [sys_run sys_step snd fst].
      destruct (Renderer.form_step clock bridge e f sh) as [f1 sh1].
      cbn [snd fst] in *.
      destruct (IH f1 sh1 Hok1) as [f' [sh' [Hrun [Hok' [Htr' [Hst' [Hp Hc]]]]]]].
      exists f', sh'.
      split; [exact Hrun |]. split; [exact Hok' |].
      split; [congruence |]. split; [| split].
      * intros s Hs Hall. cbn [forallb] in Hall.
        apply andb_prop in Hall. destruct Hall as [_ Hes].
        rewrite (Hst' s); [exact Hst | rewrite Htr; exact Hs | exact Hes].
      * intros Hf Hs. destruct (Hpos Hf Hs) as [H1 H2]. apply Hp; assumption.
      * intros Hb Hf. apply Hc; [exact Hb | apply Hq; assumption].
Qed.

End Application_runs.


(** X14.  Nothing but a quit stops the reminders: after every run of
    events without a quit request and without a click on the Quit
    entry, the job is installed and has not been stopped, whatever
    windows were closed in between. *)
Theorem job_runs_until_quit
    (clock : nat -> Z) (bridge : bool)
    (es : list SysEvent) (f : Form) (s : Settings) :
  forallb (fun e => negb (asks_quit e)) es = true ->
  exists (f' : Form) (sh' : Shell),
    sys_run clock bridge es (f, ready_shell clock s) = inr (f', sh')
    /\ scheduler (world sh') = Some (mkCron "* * * * *")
    /\ stopped sh' = false.
Proof.
  intros Hes.
  destruct (sys_run_ok clock bridge es f (ready_shell clock s)
              (ready_shell_ok clock s))
    as [f' [sh' [Hrun [Hok [_ [Hst _]]]]]].
  exists f', sh'. split; [exact Hrun |].
  split; [apply Hok |].
  rewrite (Hst s eq_refl Hes). reflexivity.
Qed.

(** X15.  With the preload script loaded, no call of the form fails:
    along every run from the start of the application, nothing is
    written to the error console of the page. *)
Theorem form_calls_are_served
    (clock : nat -> Z) (es : list SysEvent) (f : Form) (s : Settings) :
  console_error f = [] ->
  exists (f' : Form) (sh' : Shell),
    sys_run clock true es (f, ready_shell clock s) = inr (f', sh')
    /\ console_error f' = [].
Proof.
  intros Hf.
  destruct (sys_run_ok clock true es f (ready_shell clock s)
              (ready_shell_ok clock s))
    as [f' [sh' [Hrun [_ [_ [_ [_ Hc]]]]]]].
  exists f', sh'. split; [exact Hrun | exact (Hc eq_refl Hf)].
Qed.

(** X16.  The interval stays positive: started on a record with a
    positive interval, with a positive interval in the page, every run
    of events of the application leaves a positive interval in the
    record and in the page (the form sends what it loaded or the value
    of an option). *)
Theorem interval_stays_positive
    (clock : nat -> Z) (bridge : bool)
    (es : list SysEvent) (f : Form) (s : Settings) :
  0 < intervalMinutes s ->
  0 < f_intervalMinutes f ->
  exists (f' : Form) (sh' : Shell),
    sys_run clock bridge es (f, ready_shell clock s) = inr (f', sh')
    /\ 0 < intervalMinutes (store (world sh'))
    /\ 0 < f_intervalMinutes f'.
Proof.
  intros Hs Hf.
  destruct (sys_run_ok clock bridge es f (ready_shell clock s)
              (ready_shell_ok clock s))
    as [f' [sh' [Hrun [_ [_ [_ [Hp _]]]]]]].
  exists f', sh'. split; [exact Hrun |].
  destruct (Hp Hf Hs) as [H1 H2]. split; assumption.
Qed.

(** ** The form *)

Lemma form_step_without_bridge
    (clock : nat -> Z) (e : FormEvent) (f : Form) (sh : Shell) :
  snd (Renderer.form_step clock false e f sh) = sh.
Proof.
  destruct e as [| i | b | b | |]; unfold Renderer.form_step;
    try reflexivity.
  - destruct (isLoading f); [reflexivity |].
    destruct (nth_error interval_select i) as [[v l] |]; reflexivity.
  - destruct (isLoading f); reflexivity.
  - destruct (isLoading f); reflexivity.
  - destruct (isLoading f); [reflexivity |].
    destruct (isSaving f); reflexivity.
  - destruct (isLoading f); reflexivity.
Qed.

(** X17.  Without the preload script the page cannot reach the main
    process: whatever the shell, every run of events of the form
    leaves it as it was; the mount still ends the loading state, keeps
    the initial values and logs the error. *)
Theorem missing_bridge_changes_nothing
    (clock : nat -> Z) (es : list FormEvent) (f : Form) (sh : Shell) :
  (exists f' : Form,
     sys_run clock false (map OfForm es) (f, sh) = inr (f', sh))
  /\ Renderer.form_step clock false Mount f sh
     = ({| f_intervalMinutes := 60; f_openAtLogin := true;
           f_openSettingsOnLaunch := Some true;
           isLoading := false; isSaving := false;
           console_error :=
             [("Failed to load settings:"%string,
               Thrown
                 "electronAPI not found - preload script may not have loaded")]
        |}, sh).
Proof.
  split; [| reflexivity].
  revert f. induction es as [| e es IH]; intros f.
  - exists f. reflexivity.
  - cbn [map sys_run sys_step fst snd].
    pose proof (form_step_without_bridge clock e f sh) as Hsh.
    destruct (Renderer.form_step clock false e f sh) as [f1 sh1].
    cbn [snd] in Hsh. subst sh1. apply IH.
Qed.

(** X18.  The box [Open settings on launch] is not saved: two pages
    that differ in it alone leave the same shell when they save,
    whatever the shell and whether or not the bridge is there. *)
Theorem launch_box_is_not_saved
    (clock : nat -> Z) (bridge : bool)
    (b : option bool) (f : Form) (sh : Shell) :
  snd (Renderer.handleSave clock bridge
         (Renderer.setOpenSettingsOnLaunch b f) sh)
  = snd (Renderer.handleSave clock bridge f sh).
Proof.
  unfold Renderer.handleSave, Renderer.saveSettings, ipc_invoke.
  destruct bridge; [| reflexivity]. simpl.
  destruct (find_handler "save-settings" (handlers sh)) as [[| |] |];
    reflexivity.
Qed.

(** X19.  Opening the form and saving without a change keeps the
    interval and the login flag of the record; it restarts the window
    (the stamp is the reading of the save), gives the login flag to the
    system and shows the confirmation. *)
Theorem load_then_save_keeps_settings
    (clock : nat -> Z) (f : Form) (sh : Shell) :
  shell_ok sh ->
  exists (f' : Form) (sh' : Shell),
    sys_run clock true [OfForm Mount; OfForm ClickSave] (f, sh)
    = inr (f', sh')
    /\ store (world sh')
       = {| intervalMinutes := intervalMinutes (store (world sh));
            lastSent := clock (reads (world sh));
            openAtLogin := openAtLogin (store (world sh)) |}
    /\ loginItem (world sh') = Some (openAtLogin (store (world sh)))
    /\ shown (world sh') = shown (world sh) ++ [savedNotification]
    /\ f_intervalMinutes f' = intervalMinutes (store (world sh))
    /\ f_openAtLogin f' = openAtLogin (store (world sh))
    /\ isLoading f' = false /\ isSaving f' = false
    /\ console_error f' = [].
Proof.
  intros Hok. cbn [sys_run sys_step fst snd Renderer.form_step].
  rewrite (loadSettings_run clock true initial_form sh Hok).
  cbn [fst snd isLoading isSaving initial_form].
  rewrite (handleSave_run clock true _ sh Hok).
  cbn [f_intervalMinutes f_openAtLogin].
  destruct (exec_save_form clock (intervalMinutes (store (world sh)))
              (openAtLogin (store (world sh))) (world sh))
    as [Hst [Hli Hsh]].
  eexists. eexists. split; [reflexivity |].
  cbn [world set_world]. rewrite Hst, Hli, Hsh.
  repeat split.
Qed.

(** X20.  Choosing an entry of the interval selector and saving stores
    the value of the entry, which is positive; the entry whose text is
    [15 minutes] has the value 10, so choosing it stores 10. *)
Theorem select_then_save_stores_value
    (clock : nat -> Z) (f : Form) (sh : Shell)
    (i : nat) (v : Z) (l : string) :
  shell_ok sh ->
  nth_error interval_select i = Some (v, l) ->
  (exists (f' : Form) (sh' : Shell),
     sys_run clock true [OfForm Mount; OfForm (Select i); OfForm ClickSave]
             (f, sh)
     = inr (f', sh')
     /\ intervalMinutes (store (world sh')) = v
     /\ openAtLogin (store (world sh')) = openAtLogin (store (world sh)))
  /\ 0 < v
  /\ (l = "15 minutes"%string -> v = 10).
Proof.
  intros Hok Hi. split; [| split].
  - cbn [sys_run sys_step fst snd Renderer.form_step].
    rewrite (loadSettings_run clock true initial_form sh Hok).
    cbn [fst snd isLoading isSaving initial_form]. rewrite Hi.
    cbn [fst snd isLoading isSaving Renderer.setIntervalMinutes].
    rewrite (handleSave_run clock true _ sh Hok).
    cbn [f_intervalMinutes f_openAtLogin Renderer.setIntervalMinutes].
    destruct (exec_save_form clock v (openAtLogin (store (world sh)))
                (world sh)) as [Hst _].
    eexists. eexists. split; [reflexivity |].
    cbn [world set_world]. rewrite Hst. split; reflexivity.
  - exact (interval_select_positive i v l Hi).
  - intros Hl. subst l.
    do 7 (destruct i as [| i]; [simpl in Hi; inversion Hi; reflexivity |]).
    destruct i; discriminate Hi.
Qed.

(** ** Channels, and the minutes after a quit *)

Lemma find_handler_other (channel : string) (s : Settings) (clock : nat -> Z) :
  channel <> "get-settings"%string ->
  channel <> "save-settings"%string ->
  channel <> "test-notification"%string ->
  find_handler channel (handlers (ready_shell clock s)) = None.
Proof.
  intros H1 H2 H3.
  change (handlers (ready_shell clock s))
    with [ ("get-settings"%string, OnGetSettings);
           ("save-settings"%string, OnSaveSettings);
           ("test-notification"%string, OnTestNotification) ].
  cbn [find_handler].
  rewrite (proj2 (String.eqb_neq "get-settings" channel))
    by (intro E; apply H1; symmetry; exact E).
  rewrite (proj2 (String.eqb_neq "save-settings" channel))
    by (intro E; apply H2; symmetry; exact E).
  rewrite (proj2 (String.eqb_neq "test-notification" channel))
    by (intro E; apply H3; symmetry; exact E).
  reflexivity.
Qed.

(** X21.  The three channels that the preload script invokes are the
    three that the main process handles.  Before [whenReady] a call is
    rejected for want of a handler; afterwards each of the three calls
    is answered ([getSettings] with the stored record and no change,
    the other two with success), and a call on any other channel is
    rejected. *)
Theorem bridge_channels_are_handled (clock : nat -> Z) (s : Settings) :
  runStateT (Renderer.getSettings clock) (boot s)
  = inl (NoHandler "get-settings")
  /\ runStateT (Renderer.getSettings clock) (ready_shell clock s)
     = inr (store (world (ready_shell clock s)), ready_shell clock s)
  /\ (forall settings : Payload,
        exists sh' : Shell,
          runStateT (Renderer.saveSettings clock settings)
                    (ready_shell clock s)
          = inr (VReply {| success := true |}, sh'))
  /\ (exists sh' : Shell,
        runStateT (Renderer.testNotification clock) (ready_shell clock s)
        = inr (VReply {| success := true |}, sh'))
  /\ (forall (channel : string) (arg : option Payload),
        channel <> "get-settings"%string ->
        channel <> "save-settings"%string ->
        channel <> "test-notification"%string ->
        runStateT (ipc_invoke clock channel arg) (ready_shell clock s)
        = inl (NoHandler channel)).
Proof.
  destruct (ready_shell_ok clock s) as [_ [Hg [Hs [Ht _]]]].
  split; [reflexivity |].
  split; [apply getSettings_served; exact Hg |].
  split; [| split].
  - intros settings. eexists. apply saveSettings_served. exact Hs.
  - eexists. apply testNotification_served. exact Ht.
  - intros channel arg H1 H2 H3. unfold ipc_invoke.
    cbn -[find_handler ready_shell].
    rewrite (find_handler_other channel s clock H1 H2 H3). reflexivity.
Qed.

Lemma sys_run_app
    (clock : nat -> Z) (bridge : bool)
    (es1 es2 : list SysEvent) (st : Form * Shell) :
  sys_run clock bridge (es1 ++ es2) st
  = match sys_run clock bridge es1 st with
    | inr st' => sys_run clock bridge es2 st'
    | inl err => inl err
    end.
Proof.
  revert st. induction es1 as [| e es1 IH]; intros st.
  - reflexivity.
  - cbn [app sys_run]. destruct (sys_step clock bridge e st) as [err | st'].
    + reflexivity.
    + apply IH.
Qed.

Lemma minutes_after_stop
    (clock : nat -> Z) (bridge : bool) (n : nat) (f : Form) (sh : Shell) :
  scheduler (world sh) <> None ->
  stopped sh = true ->
  sys_run clock bridge (repeat (OfShell Minute) n) (f, sh) = inr (f, sh).
Proof.
  intros Hs Hst. induction n as [| n IH].
  - reflexivity.
  - cbn [repeat sys_run sys_step deliver fst snd].
    rewrite (cron_minute_run clock sh Hs), Hst. exact IH.
Qed.

(** X22.  After a quit no minute shows a reminder: the minutes that
    follow a quit request leave the page and the shell as the quit left
    them, however overdue the reminder is. *)
Theorem no_reminder_after_quit
    (clock : nat -> Z) (bridge : bool)
    (es : list SysEvent) (n : nat) (f : Form) (s : Settings) :
  exists (f' : Form) (sh' : Shell),
    sys_run clock bridge (es ++ [OfShell QuitRequest])
            (f, ready_shell clock s) = inr (f', sh')
    /\ stopped sh' = true
    /\ sys_run clock bridge
         ((es ++ [OfShell QuitRequest]) ++ repeat (OfShell Minute) n)
         (f, ready_shell clock s) = inr (f', sh').
Proof.
  destruct (sys_run_ok clock bridge es f (ready_shell clock s)
              (ready_shell_ok clock s))
    as [f1 [sh1 [Hrun [Hok _]]]].
  destruct (app_quit_ok sh1 Hok) as [sh2 [Hq [Hok2 [_ [_ Hst]]]]].
  assert (Hfirst : sys_run clock bridge (es ++ [OfShell QuitRequest])
                     (f, ready_shell clock s) = inr (f1, sh2)).
  { rewrite sys_run_app, Hrun.
    cbn [sys_run sys_step deliver fst snd]. rewrite Hq. reflexivity. }
  exists f1, sh2. split; [exact Hfirst |]. split; [exact Hst |].
  rewrite sys_run_app, Hfirst.
  apply minutes_after_stop; [| exact Hst].
  destruct Hok2 as [_ [_ [_ [_ [Hs _]]]]]. rewrite Hs. discriminate.
Qed.

(** ** Concrete runs of the application *)

Lemma clock_from_positive (t0 : Z) :
  0 < t0 -> forall k : nat, 0 < clock_from t0 k.
Proof. intros H k. unfold clock_from. lia. Qed.

Lemma clock_from_nonzero (t0 : Z) :
  0 < t0 -> forall k : nat, clock_from t0 k <> 0.
Proof. intros H k. unfold clock_from. lia. Qed.

Lemma sentinel_absorbs_ticks_witness :
  run (clock_from 5000) (repeat CronTick 3) (world_at schema 0)
  = world_at schema 0.
Proof.
  apply (sentinel_absorbs_ticks (clock_from 5000) 3 (world_at schema 0)).
  reflexivity.
Defined.

(** Sixteen minutes after the stamp, three ticks: one reminder. *)
Lemma due_tick_fires_once_witness :
  shown (run (clock_from 961000) (repeat CronTick 3)
             (world_at (quarter_hour 1000) 0)) = [waterNotification]
  /\ lastSent (store (run (clock_from 961000) (repeat CronTick 3)
                          (world_at (quarter_hour 1000) 0))) = 961001.
Proof.
  apply (due_tick_fires_once (clock_from 961000) 2
           (world_at (quarter_hour 1000) 0)).
  - discriminate.
  - unfold clock_from. simpl. lia.
  - intros k Hk. change (2 <= k < 4)%nat in Hk.
    change (clock_from 961000 k - 961001 < 900000).
    unfold clock_from. lia.
Defined.

(** An interval of -5 minutes: three ticks, three reminders. *)
Lemma nonpositive_interval_fires_every_tick_witness :
  shown (run (clock_from 1000) (repeat CronTick 3)
             (world_at {| intervalMinutes := -5; lastSent := 500;
                          openAtLogin := false |} 0))
  = [waterNotification; waterNotification; waterNotification].
Proof.
  apply (nonpositive_interval_fires_every_tick (clock_from 1000) 3
           (world_at {| intervalMinutes := -5; lastSent := 500;
                        openAtLogin := false |} 0)).
  - apply clock_from_nondecreasing.
  - apply clock_from_nonzero. reflexivity.
  - discriminate.
  - discriminate.
  - discriminate.
Defined.

Lemma test_notification_postpones_witness :
  shown (run (clock_from 961000) (repeat CronTick 3)
             (exec (test_notification (clock_from 961000))
                   (world_at (quarter_hour 1000) 0)))
  = [waterNotification].
Proof.
  apply (test_notification_postpones (clock_from 961000) 3
           (world_at (quarter_hour 1000) 0)).
  intros k Hk. change (1 <= k < 4)%nat in Hk.
  change (clock_from 961000 k - 961000 < 900000).
  unfold clock_from. lia.
Defined.

Lemma stamp_positive_after_start_witness :
  0 < lastSent (store (run (clock_from 1000)
                           [AppReady; CronTick; TestNotification; CronTick]
                           (world_at schema 0))).
Proof.
  apply (stamp_positive_after_start (clock_from 1000)
           [CronTick; TestNotification; CronTick] (world_at schema 0)).
  apply clock_from_positive. reflexivity.
Defined.

Lemma close_then_open_makes_new_window_witness :
  settingsWindow (with_window (boot schema)) = Some 0%nat
  /\ openWindows (with_window (boot schema)) = [0%nat]
  /\ exists sh' : Shell,
       runStateT (window_closed 0 ;; createSettingsWindow)
                 (with_window (boot schema)) = inr (tt, sh')
       /\ openWindows sh' = [1%nat].
Proof.
  split; [reflexivity | split; [reflexivity |]].
  eexists. split.
  - apply (close_then_open_makes_new_window (with_window (boot schema)) 0);
      reflexivity.
  - reflexivity.
Defined.

Lemma before_quit_safe_witness :
  runStateT before_quit (boot schema) = inr (tt, boot schema)
  /\ runStateT before_quit (ready_shell (clock_from 1000) schema)
     = inr (tt, set_stopped true (ready_shell (clock_from 1000) schema)).
Proof.
  split.
  - apply (proj1 (before_quit_safe (boot schema))). reflexivity.
  - apply (proj1 (proj2 (before_quit_safe
                           (ready_shell (clock_from 1000) schema)))).
    discriminate.
Defined.

(** The window is opened and closed, a minute passes, the form saves. *)
Lemma job_runs_until_quit_witness :
  exists (f' : Form) (sh' : Shell),
    sys_run (clock_from 1000) true
            [OfShell TrayClick; OfForm Mount; OfForm ClickSave;
             OfShell (WindowClosed 0); OfShell Minute]
            (initial_form, ready_shell (clock_from 1000) schema)
    = inr (f', sh')
    /\ scheduler (world sh') = Some (mkCron "* * * * *")
    /\ stopped sh' = false.
Proof.
  apply (job_runs_until_quit (clock_from 1000) true
           [OfShell TrayClick; OfForm Mount; OfForm ClickSave;
            OfShell (WindowClosed 0); OfShell Minute]
           initial_form schema).
  reflexivity.
Defined.

Lemma form_calls_are_served_witness :
  exists (f' : Form) (sh' : Shell),
    sys_run (clock_from 1000) true
            [OfForm Mount; OfForm ClickTest; OfForm ClickSave]
            (initial_form, ready_shell (clock_from 1000) schema)
    = inr (f', sh')
    /\ console_error f' = [].
Proof.
  apply (form_calls_are_served (clock_from 1000)
           [OfForm Mount; OfForm ClickTest; OfForm ClickSave]
           initial_form schema).
  reflexivity.
Defined.

Lemma interval_stays_positive_witness :
  exists (f' : Form) (sh' : Shell),
    sys_run (clock_from 1000) true
            [OfForm Mount; OfForm (Select 2); OfForm ClickSave;
             OfShell Minute]
            (initial_form, ready_shell (clock_from 1000) schema)
    = inr (f', sh')
    /\ 0 < intervalMinutes (store (world sh'))
    /\ 0 < f_intervalMinutes f'.
Proof.
  apply (interval_stays_positive (clock_from 1000) true
           [OfForm Mount; OfForm (Select 2); OfForm ClickSave;
            OfShell Minute]
           initial_form schema); reflexivity.
Defined.

Lemma load_then_save_keeps_settings_witness :
  exists (f' : Form) (sh' : Shell),
    sys_run (clock_from 1000) true [OfForm Mount; OfForm ClickSave]
            (initial_form, ready_shell (clock_from 1000) schema)
    = inr (f', sh')
    /\ intervalMinutes (store (world sh')) = 15
    /\ openAtLogin (store (world sh')) = false.
Proof.
  destruct (load_then_save_keeps_settings (clock_from 1000) initial_form
              (ready_shell (clock_from 1000) schema)
              (ready_shell_ok (clock_from 1000) schema))
    as [f' [sh' [Hrun [Hst _]]]].
  exists f', sh'. split; [exact Hrun |].
  rewrite Hst. split; reflexivity.
Defined.

(** The entry shown as [15 minutes] stores 10. *)
Lemma select_then_save_stores_value_witness :
  exists (f' : Form) (sh' : Shell),
    sys_run (clock_from 1000) true
            [OfForm Mount; OfForm (Select 2); OfForm ClickSave]
            (initial_form, ready_shell (clock_from 1000) schema)
    = inr (f', sh')
    /\ intervalMinutes (store (world sh')) = 10.
Proof.
  destruct (select_then_save_stores_value (clock_from 1000) initial_form
              (ready_shell (clock_from 1000) schema)
              2 10 "15 minutes"
              (ready_shell_ok (clock_from 1000) schema) eq_refl)
    as [[f' [sh' [Hrun [Hv _]]]] _].
  exists f', sh'. split; [exact Hrun | exact Hv].
Defined.

(** A channel with a misspelt name is not handled. *)
Lemma bridge_channels_are_handled_witness :
  runStateT (ipc_invoke (clock_from 1000) "get-setting" None)
            (ready_shell (clock_from 1000) schema)
  = inl (NoHandler "get-setting").
Proof.
  apply (proj2 (proj2 (proj2 (proj2
           (bridge_channels_are_handled (clock_from 1000) schema)))));
    discriminate.
Defined.
